(** * Custom 404 resolution in [readthedocs/core/views/__init__.py]

    A shallow embedding of [server_error_404] and
    [server_error_404_subdomain] (with its local helper
    [resolve_404_path]).  Python strings are [string], [None]-able
    values are [option], the [IndexError] of [filename[0]] is an explicit
    exception, and what the handlers do to the outside world (log
    records, [os.path.exists] probes) is collected in a trace. *)

From Stdlib Require Import String Ascii List ZArith Bool Lia.
From Stdlib Require Import Permutation.
Import ListNotations.
Open Scope string_scope.

(** ** Data model *)

(** [readthedocs.builds.models.Version], the fields the views read. *)
Module Version.
Record t := { slug : string; privacy_level : string }.
End Version.

(** [readthedocs.projects.models.Project]; [versions] is the related
    manager [project.versions], in query-set order. *)
Module Project.
Record t := {
  slug : string;
  privacy_level : string;
  single_version : bool;
  versions : list Version.t
}.
End Project.

(** [django.http.HttpRequest] as the views use it: the two URL methods
    and the attributes read through [getattr(request, name, False)]. *)
Module Request.
Record t := {
  get_full_path : string;
  build_absolute_uri : string;
  subdomain : bool;
  cname : bool
}.
End Request.

(** The six components of [urllib.parse.urlparse]. *)
Module ParseResult.
Record t := {
  scheme : string;
  netloc : string;
  path : string;
  params : string;
  query : string;
  fragment : string
}.
End ParseResult.

(** The response returned by [get_redirect_response]; [url] is its
    [Location]. *)
Record HttpResponseRedirect := {
  url : string;
  redirect_status_code : Z
}.

(** What a response carries: a redirect, the file handed to
    [static_serve(request, path, document_root)], or the template given
    to [render(request, template_name)]. *)
Inductive Content :=
| RedirectTo (location : string)
| StaticFile (path document_root : string)
| Rendered (template_name : string).

Record HttpResponse := {
  content : Content;
  status_code : Z
}.

(** [r.status_code = code] *)
Definition set_status_code (r : HttpResponse) (code : Z) : HttpResponse :=
  {| content := content r; status_code := code |}.

Definition redirect_response (r : HttpResponseRedirect) : HttpResponse :=
  {| content := RedirectTo (url r); status_code := redirect_status_code r |}.

(** [readthedocs.projects.constants.PRIVATE] *)
Definition PRIVATE : string := "private".

(** ** Effects: exceptions and the trace of observable calls *)

Inductive exn := IndexError.

Inductive event :=
| LogWarning (target : string)
| LogDebug (project_slug : string) (version_slug : option string)
| PathExists (fullpath : string).

(** A computation yields a value or raises, and records its events. *)
Definition M (A : Type) : Type := (exn + A) * list event.

Definition ret {A} (a : A) : M A := (inr a, []).

Definition raise {A} (e : exn) : M A := (inl e, []).

Definition bind {A B} (m : M A) (f : A -> M B) : M B :=
  match m with
  | (inl e, t) => (inl e, t)
  | (inr a, t) => let (r, t') := f a in (r, (t ++ t')%list)
  end.

Definition emit (ev : event) : M unit := (inr tt, [ev]).

Declare Scope views_scope.
Delimit Scope views_scope with views.
Notation "x <- c ;; k" := (bind c (fun x => k))
  (at level 100, c at next level, right associativity) : views_scope.
Notation "' pat <- c ;; k" := (bind c (fun x => match x with pat => k end))
  (at level 100, pat pattern, c at next level, right associativity) : views_scope.
Notation "c ;;; k" := (bind c (fun _ => k))
  (at level 100, right associativity) : views_scope.
Open Scope views_scope.

(** The paths handed to [os.path.exists], in call order. *)
Fixpoint probes (t : list event) : list string :=
  match t with
  | [] => []
  | PathExists p :: t' => p :: probes t'
  | _ :: t' => probes t'
  end.

(** ** Python string primitives *)

(** [s[0]]: raises [IndexError] on the empty string. *)
Definition str_first (s : string) : M ascii :=
  match s with
  | EmptyString => raise IndexError
  | String c _ => ret c
  end.

(** [s[1:]] *)
Definition str_tail (s : string) : string :=
  match s with
  | EmptyString => EmptyString
  | String _ r => r
  end.

(** [s.startswith('/')] *)
Definition startswith_sep (s : string) : bool :=
  match s with
  | String c _ => Ascii.eqb c "/"
  | EmptyString => false
  end.

(** [s.endswith('/')] *)
Fixpoint endswith_sep (s : string) : bool :=
  match s with
  | EmptyString => false
  | String c EmptyString => Ascii.eqb c "/"
  | String _ r => endswith_sep r
  end.

(** [not s] on a string *)
Definition str_is_empty (s : string) : bool :=
  match s with
  | EmptyString => true
  | String _ _ => false
  end.

(** [posixpath.join(a, b)] for two arguments. *)
Definition os_path_join (a b : string) : string :=
  if startswith_sep b then b
  else if str_is_empty a || endswith_sep a then a ++ b
  else a ++ "/" ++ b.

(** Truth value of [version_slug]: [None] and [''] are false. *)
Definition slug_truthy (version_slug : option string) : bool :=
  match version_slug with
  | None => false
  | Some s => negb (str_is_empty s)
  end.

(** [any(xs)] *)
Definition any (xs : list bool) : bool := existsb (fun b => b) xs.

(** ** Collaborators that live outside this module

    The resolver, the symlink classes, the redirect utilities, the
    default-version method, [urlparse] and the file system are not part
    of the views module; the handlers are stated over any
    implementation of them. *)
Class Collaborators := {
  (** [resolve_path(project, version_slug=, language=, filename=, subdomain=)] *)
  resolve_path :
    Project.t -> option string -> option string -> string -> bool -> string;
  (** [PrivateSymlink(project).project_root] *)
  PrivateSymlink_project_root : Project.t -> string;
  (** [PublicSymlink(project).project_root] *)
  PublicSymlink_project_root : Project.t -> string;
  (** [project.get_default_version()] *)
  get_default_version : Project.t -> string;
  (** [get_redirect_response(request, full_path=)] *)
  get_redirect_response : Request.t -> string -> option HttpResponseRedirect;
  (** [project_and_path_from_request(request, path)] *)
  project_and_path_from_request :
    Request.t -> string -> option Project.t * string;
  (** [language_and_version_from_path(path)] *)
  language_and_version_from_path :
    string -> option string * option string * string;
  urlparse : string -> ParseResult.t;
  (** [os.path.exists(path)] on the content store *)
  path_exists : string -> bool
}.

(** [static_serve(request, path, document_root)] and
    [render(request, template_name)] build a fresh 200 response.  The
    response stands for the call with these arguments: what Django's
    file server then does with the file (its body, a not-modified
    answer, an [Http404] of its own for a directory) is not part of
    this module and is not described here. *)
Definition static_serve (request : Request.t) (path document_root : string)
  : HttpResponse :=
  {| content := StaticFile path document_root; status_code := 200 |}.

Definition render (request : Request.t) (template_name : string)
  : HttpResponse :=
  {| content := Rendered template_name; status_code := 200 |}.

Section Views.
Context `{Collaborators}.

Definition os_path_exists (fullpath : string) : M bool :=
  emit (PathExists fullpath) ;;; ret (path_exists fullpath).

Definition log_warning (target : string) : M unit :=
  emit (LogWarning target).

Definition log_debug (project_slug : string) (slug : option string)
  : M unit :=
  emit (LogDebug project_slug slug).

(** [project.versions.filter(slug=version_slug)] *)
Definition versions_filter (project : Project.t) (version_slug : string)
  : list Version.t :=
  filter (fun v => String.eqb (Version.slug v) version_slug)
         (Project.versions project).

(** The helper nested in [server_error_404_subdomain]. *)
Definition resolve_404_path (project : Project.t)
    (version_slug language : option string) (filename : string)
  : M (string * string * string) :=
  let filename := resolve_path project version_slug language filename true in
  c <- str_first filename ;;
  let filename :=
    if Ascii.eqb c "/" then str_tail filename else filename in
  let version :=
    if slug_truthy version_slug then
      match version_slug with
      | Some s =>
          let version_qs := versions_filter project s in
          match version_qs with
          | [] => None
          | first :: _ => Some first
          end
      | None => None
      end
    else None in
  let private :=
    any [ match version with
          | Some v => String.eqb (Version.privacy_level v) PRIVATE
          | None => false
          end;
          match version with
          | Some _ => false
          | None => String.eqb (Project.privacy_level project) PRIVATE
          end ] in
  let basepath :=
    if private then PrivateSymlink_project_root project
    else PublicSymlink_project_root project in
  let fullpath := os_path_join basepath filename in
  ret (basepath, filename, fullpath).

(** [for tryfile in (...)]: [Some r] when the body returned [r]. *)
Fixpoint for_tryfile (request : Request.t) (project : Project.t)
    (slug language : option string) (tryfiles : list string)
  : M (option HttpResponse) :=
  match tryfiles with
  | [] => ret None
  | tryfile :: rest =>
      '(basepath, filename, fullpath) <-
        resolve_404_path project slug language tryfile ;;
      found <- os_path_exists fullpath ;;
      if found then
        log_debug (Project.slug project) slug ;;;
        let r := static_serve request filename basepath in
        ret (Some (set_status_code r 404))
      else for_tryfile request project slug language rest
  end.

(** [for slug in (...)] around the inner loop. *)
Fixpoint for_slug (request : Request.t) (project : Project.t)
    (language : option string) (slugs : list (option string))
  : M (option HttpResponse) :=
  match slugs with
  | [] => ret None
  | slug :: rest =>
      r <- for_tryfile request project slug language
             ["404.html"; "404/index.html"] ;;
      match r with
      | Some r => ret (Some r)
      | None => for_slug request project language rest
      end
  end.

(** The tail of both handlers: the page rendered by Read the Docs. *)
Definition default_404 (request : Request.t) (template_name : string)
  : HttpResponse :=
  set_status_code (render request template_name) 404.

(** The language and version the search runs with, lines 190-194. *)
Definition language_and_version (project : Project.t) (full_path : string)
  : option string * option string :=
  let language := @None string in
  let version_slug := @None string in
  let path := ParseResult.path (urlparse full_path) in
  if negb (Project.single_version project) then
    let '(language, version_slug, _) :=
      language_and_version_from_path path in
    (language, version_slug)
  else (language, version_slug).

Definition server_error_404_subdomain (request : Request.t)
    (template_name : string) : M HttpResponse :=
  let '(project, full_path) :=
    project_and_path_from_request request (Request.get_full_path request) in
  served <-
    match project with
    | Some project =>
        let '(language, version_slug) :=
          language_and_version project full_path in
        for_slug request project language
                 [version_slug; Some (get_default_version project)]
    | None => ret None
    end ;;
  match served with
  | Some r => ret r
  | None => ret (default_404 request template_name)
  end.

Definition server_error_404 (request : Request.t) (template_name : string)
  : M HttpResponse :=
  let response :=
    get_redirect_response request (Request.get_full_path request) in
  redirected <-
    match response with
    | Some response =>
        if String.eqb (url response) (Request.build_absolute_uri request)
        then log_warning (url response) ;;; ret None
        else ret (Some (redirect_response response))
    | None => ret None
    end ;;
  match redirected with
  | Some r => ret r
  | None =>
      if Request.subdomain request || Request.cname request then
        server_error_404_subdomain request template_name
      else ret (default_404 request template_name)
  end.

End Views.

(** ** Vocabulary of the properties *)

Section Properties.
Context `{Collaborators}.

(** The two file names tried for every slug, line 200. *)
Definition tryfiles : list string := ["404.html"; "404/index.html"].

(** The (slug, file name) pairs in the order the nested loops visit
    them. *)
Definition candidates (version_slug : option string) (default : string)
  : list (option string * string) :=
  [ (version_slug, "404.html"); (version_slug, "404/index.html");
    (Some default, "404.html"); (Some default, "404/index.html") ].

(** One pass of the loop body over a flat list of candidates. *)
Fixpoint for_candidates (request : Request.t) (project : Project.t)
    (language : option string) (cands : list (option string * string))
  : M (option HttpResponse) :=
  match cands with
  | [] => ret None
  | (slug, tryfile) :: rest =>
      '(basepath, filename, fullpath) <-
        resolve_404_path project slug language tryfile ;;
      found <- os_path_exists fullpath ;;
      if found then
        log_debug (Project.slug project) slug ;;;
        ret (Some (set_status_code (static_serve request filename basepath) 404))
      else for_candidates request project language rest
  end.

(** A candidate resolves to [fullpath] and nothing is stored there. *)
Definition misses (project : Project.t) (language : option string)
    (cand : option string * string) (fullpath : string) : Prop :=
  exists basepath filename,
    resolve_404_path project (fst cand) language (snd cand)
      = ret (basepath, filename, fullpath)
    /\ path_exists fullpath = false.

(** The root that goes with a privacy classification. *)
Definition root_of_privacy (project : Project.t) (privacy : string) : string :=
  if String.eqb privacy PRIVATE then PrivateSymlink_project_root project
  else PublicSymlink_project_root project.

(** The version record a slug names, if any: the first one the
    query set holds. *)
Definition version_record (project : Project.t) (version_slug : option string)
  : option Version.t :=
  match version_slug with
  | Some s =>
      find (fun v => String.eqb (Version.slug v) s) (Project.versions project)
  | None => None
  end.

(** The root for a candidate: decided by the version record found for
    a non-empty slug, else by the project. *)
Definition selected_root (project : Project.t) (version_slug : option string)
  : string :=
  match (if slug_truthy version_slug
         then version_record project version_slug else None) with
  | Some v => root_of_privacy project (Version.privacy_level v)
  | None => root_of_privacy project (Project.privacy_level project)
  end.

(** The resolver's path with one leading separator removed. *)
Definition strip_one_sep (resolved : string) : string :=
  if startswith_sep resolved then str_tail resolved else resolved.

(** Version records carry a non-empty slug, unique within the project. *)
Definition wf_versions (project : Project.t) : Prop :=
  NoDup (map Version.slug (Project.versions project))
  /\ Forall (fun v => Version.slug v <> "") (Project.versions project).

(** The string starts with two path separators. *)
Definition startswith_two_seps (s : string) : bool :=
  match s with
  | String c1 (String c2 _) => Ascii.eqb c1 "/" && Ascii.eqb c2 "/"
  | _ => false
  end.

(** What is left of [server_error_404] when no redirect is returned,
    lines 127-134. *)
Definition without_redirect (request : Request.t) (template_name : string)
  : M HttpResponse :=
  if Request.subdomain request || Request.cname request then
    server_error_404_subdomain request template_name
  else ret (default_404 request template_name).

(** The end of [server_error_404_subdomain]: return what the loops
    served, else the default page, lines 212-215. *)
Definition serve_or_default (request : Request.t) (template_name : string)
    (search : M (option HttpResponse)) : M HttpResponse :=
  served <- search ;;
  match served with
  | Some r => ret r
  | None => ret (default_404 request template_name)
  end.

End Properties.

(** ** A sample deployment

    One project, [pip], served on its own subdomain, with a private
    version [v2] and a public default version [latest]. *)
Module Demo.

Definition v2 : Version.t :=
  {| Version.slug := "v2"; Version.privacy_level := "private" |}.

Definition latest : Version.t :=
  {| Version.slug := "latest"; Version.privacy_level := "public" |}.

Definition pip : Project.t :=
  {| Project.slug := "pip"; Project.privacy_level := "public";
     Project.single_version := false; Project.versions := [v2; latest] |}.

(** A single-version project: its URLs carry no language or version. *)
Definition manual : Project.t :=
  {| Project.slug := "manual"; Project.privacy_level := "public";
     Project.single_version := true; Project.versions := [latest] |}.

(** The characters before the first occurrence of [c], and the rest
    from that occurrence on. *)
Fixpoint cut_at (c : ascii) (s : string) : string * string :=
  match s with
  | EmptyString => (EmptyString, EmptyString)
  | String d r =>
      if Ascii.eqb d c then (EmptyString, s)
      else let (a, b) := cut_at c r in (String d a, b)
  end.

(** A leading ["/segment"] with a non-empty segment, and what follows. *)
Definition segment (s : string) : option (string * string) :=
  match s with
  | String c r =>
      if Ascii.eqb c "/" then
        let (seg, rest) := cut_at "/" r in
        if str_is_empty seg then None else Some (seg, rest)
      else None
  | EmptyString => None
  end.

(** Modelled from the spec: [language_and_version_from_path] of
    [readthedocs.redirects.utils] is not in this module; section 4.4
    has it split the remaining path on its first two segments into
    (language, versionSlug, filePath).  A path without two such
    segments followed by a file part is left whole. *)
Definition split_language_version (path : string)
  : option string * option string * string :=
  match segment path with
  | Some (language, r1) =>
      match segment r1 with
      | Some (version_slug, r2) =>
          if startswith_sep r2 then (Some language, Some version_slug, r2)
          else (None, None, path)
      | None => (None, None, path)
      end
  | None => (None, None, path)
  end.

(** Modelled from the spec: [resolve_path] of
    [readthedocs.core.resolver] is not in this module; section 4.1
    makes it a pure composition of language, version and file name
    into a path without URL prefix, language and version being left
    out for a single-version project. *)
Definition compose_path (project : Project.t)
    (version_slug language : option string) (filename : string)
    (subdomain : bool) : string :=
  if Project.single_version project then "/" ++ filename
  else
    "/" ++ match language with Some l => l | None => "en" end
    ++ "/" ++ match version_slug with Some v => v | None => "latest" end
    ++ "/" ++ filename.

(** A path component cut before the query string and the fragment. *)
Definition parse (full_path : string) : ParseResult.t :=
  let (before_fragment, fragment) := cut_at "#" full_path in
  let (path, query) := cut_at "?" before_fragment in
  {| ParseResult.scheme := ""; ParseResult.netloc := "";
     ParseResult.path := path; ParseResult.params := "";
     ParseResult.query := str_tail query;
     ParseResult.fragment := str_tail fragment |}.

(** Redirect rules of the sample: [/old/] moves to [/new/], and [/loop/]
    points at itself. *)
Definition redirects (request : Request.t) (full_path : string)
  : option HttpResponseRedirect :=
  if String.eqb full_path "/old/" then
    Some {| url := "https://pip.example.com/new/";
            redirect_status_code := 302 |}
  else if String.eqb full_path "/loop/" then
    Some {| url := "https://pip.example.com/loop/";
            redirect_status_code := 302 |}
  else None.

(** A deployment serving [project] on its virtual host, with the given
    resolver and the given files on the content store. *)
Definition deployment (project : Project.t)
    (resolver : Project.t -> option string -> option string -> string
                -> bool -> string)
    (store : list string) : Collaborators :=
  {| resolve_path := resolver;
     PrivateSymlink_project_root :=
       fun p => "/private_web_root/" ++ Project.slug p;
     PublicSymlink_project_root :=
       fun p => "/public_web_root/" ++ Project.slug p;
     get_default_version := fun _ => "latest";
     get_redirect_response := redirects;
     project_and_path_from_request :=
       fun request path =>
         if Request.subdomain request || Request.cname request
         then (Some project, path) else (None, path);
     language_and_version_from_path := split_language_version;
     urlparse := parse;
     path_exists := fun p => existsb (String.eqb p) store |}.

(** Both versions ship [404/index.html] only. *)
Definition site : Collaborators :=
  deployment pip compose_path
    [ "/private_web_root/pip/en/v2/404/index.html";
      "/public_web_root/pip/en/latest/404/index.html" ].

(** No custom error page at all. *)
Definition bare_site : Collaborators := deployment pip compose_path [].

(** A resolver whose paths start with two separators. *)
Definition doubled_site : Collaborators :=
  deployment pip (fun p v l f s => "/" ++ compose_path p v l f s) [].

(** A resolver that yields the empty path. *)
Definition empty_site : Collaborators :=
  deployment pip (fun _ _ _ _ _ => "") [].

(** The single-version project, with a custom page at its root. *)
Definition manual_site : Collaborators :=
  deployment manual compose_path ["/public_web_root/manual/404.html"].

Definition on_subdomain (full_path : string) : Request.t :=
  {| Request.get_full_path := full_path;
     Request.build_absolute_uri := "https://pip.example.com" ++ full_path;
     Request.subdomain := true; Request.cname := false |}.

Definition on_platform (full_path : string) : Request.t :=
  {| Request.get_full_path := full_path;
     Request.build_absolute_uri := "https://readthedocs.org" ++ full_path;
     Request.subdomain := false; Request.cname := false |}.

End Demo.

(** ** The other views of the module *)

(** Truth value of an optional string: [None] and [''] are false. *)
Definition is_truthy (s : option string) : bool :=
  match s with
  | None => false
  | Some s => negb (str_is_empty s)
  end.

(** Values a template context holds. *)
Inductive ctx_value :=
| VStr (s : string)
| VInt (n : nat)
| VProjects (queryset : list Project.t)
| VVersion (version : Version.t)
| VProject (project : Project.t).

(** A Python [dict] with string keys, in insertion order. *)
Definition dict : Type := list (string * ctx_value).

(** [d.get(key)] *)
Fixpoint dict_get (d : dict) (key : string) : option ctx_value :=
  match d with
  | [] => None
  | (k, v) :: rest => if String.eqb k key then Some v else dict_get rest key
  end.

(** [d[key] = value]: an existing key keeps its place, a new one goes
    last. *)
Fixpoint dict_set (d : dict) (key : string) (value : ctx_value) : dict :=
  match d with
  | [] => [(key, value)]
  | (k, v) :: rest =>
      if String.eqb k key then (k, value) :: rest
      else (k, v) :: dict_set rest key value
  end.

(** Exceptions of the views outside the 404 handlers. *)
Inductive http_exn :=
| Http404 (message : string)
| MultipleObjectsReturned.

(** What those views answer with: [HttpResponseRedirect(url)], or
    [render(request, template_name, context)]. *)
Inductive ViewResponse :=
| Redirected (response : HttpResponseRedirect)
| TemplatePage (template_name : string) (context : dict).

(** [django.conf.settings], the two entries [SupportView] reads. *)
Module Settings.
Record t := {
  SUPPORT_EMAIL : option string;
  PRODUCTION_DOMAIN : string
}.
End Settings.

Module HomepageView.
Section View.
(** [Project.objects], the [featured] column, and the inherited
    [get_context_data]. *)
Variable objects : list Project.t.
Variable featured : Project.t -> bool.
Variable super_get_context_data : dict -> dict.

Definition get_context_data (kwargs : dict) : dict :=
  let context := super_get_context_data kwargs in
  let context :=
    dict_set context "featured_list" (VProjects (filter featured objects)) in
  let context :=
    dict_set context "projects_count" (VInt (length objects)) in
  context.

End View.
End HomepageView.

Module SupportView.
Section View.
Variable settings : Settings.t.
Variable super_get_context_data : dict -> dict.

Definition get_context_data (kwargs : dict) : dict :=
  let context := super_get_context_data kwargs in
  let support_email := Settings.SUPPORT_EMAIL settings in
  let support_email :=
    if negb (is_truthy support_email) then
      "support@" ++ Settings.PRODUCTION_DOMAIN settings
    else match support_email with Some e => e | None => "" end in
  let context := dict_set context "support_email" (VStr support_email) in
  context.

End View.
End SupportView.

(** [readthedocs.projects.models.HTMLFile]: the slug of its project and
    the value of [get_absolute_url()]. *)
Module HTMLFile.
Record t := { project_slug : string; get_absolute_url : string }.
End HTMLFile.

Section RandomPage.
(** [HTMLFile.objects] and the order [order_by('?')] puts it in. *)
Variable objects : list HTMLFile.t.
Variable order_by_random : list HTMLFile.t -> list HTMLFile.t.

Definition random_page (project_slug : option string)
  : http_exn + HttpResponseRedirect :=
  let html_file := order_by_random objects in
  let html_file :=
    if is_truthy project_slug then
      match project_slug with
      | Some s =>
          filter (fun f => String.eqb (HTMLFile.project_slug f) s) html_file
      | None => html_file
      end
    else html_file in
  match html_file with
  | [] => inl (Http404 "")
  | first :: _ =>
      inr {| url := HTMLFile.get_absolute_url first;
             redirect_status_code := 302 |}
  end.

End RandomPage.

(** The request of [wipe_version]: [request.user] and
    [request.method]. *)
Module AuthRequest.
Record t := { user : string; method : string }.
End AuthRequest.

(** The one side effect of [wipe_version]. *)
Inductive action :=
| WipeVersionViaSlugs (version_slug project_slug : string).

Section WipeVersion.
(** [Project.objects], [Project.objects.for_admin_user(user=)] and the
    URL resolution behind [redirect(name, *args)]. *)
Variable objects : list Project.t.
Variable for_admin_user : string -> list Project.t.
Variable reverse : string -> list string -> string.

(** [Version.objects], each version with the project it belongs to. *)
Definition version_objects : list (Project.t * Version.t) :=
  flat_map (fun p => map (pair p) (Project.versions p)) objects.

(** [get_object_or_404(Version, project__slug=, slug=)] *)
Definition get_object_or_404 (project_slug version_slug : string)
  : http_exn + Project.t * Version.t :=
  match filter (fun pv =>
                  String.eqb (Project.slug (fst pv)) project_slug
                  && String.eqb (Version.slug (snd pv)) version_slug)
               version_objects with
  | [] => inl (Http404 "No Version matches the given query.")
  | [pv] => inr pv
  | _ => inl MultipleObjectsReturned
  end.

(** [project in queryset]: model instances compare by key, which for a
    project is its slug. *)
Definition project_in (project : Project.t) (queryset : list Project.t)
  : bool :=
  existsb (fun p => String.eqb (Project.slug p) (Project.slug project))
          queryset.

Definition wipe_version (request : AuthRequest.t)
    (project_slug version_slug : string)
  : (http_exn + ViewResponse) * list action :=
  match get_object_or_404 project_slug version_slug with
  | inl e => (inl e, [])
  | inr (project, version) =>
      if negb (project_in project
                 (for_admin_user (AuthRequest.user request)))
      then (inl (Http404 "You must own this project to wipe it."), [])
      else if String.eqb (AuthRequest.method request) "POST" then
        (inr (Redirected
                {| url := reverse "project_version_list" [project_slug];
                   redirect_status_code := 302 |}),
         [WipeVersionViaSlugs version_slug project_slug])
      else
        (inr (TemplatePage "wipe_version.html"
                [("version", VVersion version);
                 ("project", VProject project)]),
         [])
  end.

End WipeVersion.

(** [JsonResponse(data, content_type=)] of [do_not_track]. *)
Inductive json :=
| JStr (s : string)
| JList (items : list string).

Record JsonResponse := {
  data : list (string * json);
  content_type : string
}.

(** [request.META.get(key)] *)
Fixpoint META_get (META : list (string * string)) (key : string)
  : option string :=
  match META with
  | [] => None
  | (k, v) :: rest => if String.eqb k key then Some v else META_get rest key
  end.

Definition do_not_track (META : list (string * string)) : JsonResponse :=
  let dnt_header := META_get META "HTTP_DNT" in
  {| data :=
       [ ("policy",
          JStr "https://docs.readthedocs.io/en/latest/privacy-policy.html");
         ("same-party",
          JList [ "readthedocs.org"; "readthedocs.com"; "readthedocs.io";
                  "readthedocs-hosted.com" ]);
         ("tracking",
          JStr (match dnt_header with
                | Some h => if String.eqb h "1" then "N" else "T"
                | None => "T"
                end)) ];
     content_type := "application/tracking-status+json" |}.

(** ** Vocabulary of the further properties *)

(** The file passes the filter [random_page] applies for this slug. *)
Definition selected_by (project_slug : option string) (f : HTMLFile.t)
  : bool :=
  match project_slug with
  | Some s =>
      if str_is_empty s then true
      else String.eqb (HTMLFile.project_slug f) s
  | None => true
  end.

(** [os.path.exists] said no to this path. *)
Definition missing `{Collaborators} (fullpath : string) : Prop :=
  path_exists fullpath = false.

(** What the subdomain handler hands to [serve_or_default]. *)
Definition subdomain_search `{Collaborators} (request : Request.t) : M (option HttpResponse) :=
  let '(project, full_path) :=
    project_and_path_from_request request (Request.get_full_path request) in
  match project with
  | Some project =>
      let '(language, version_slug) :=
        language_and_version project full_path in
      for_candidates request project language
        (candidates version_slug (get_default_version project))
  | None => ret None
  end.

(** The value under ["tracking"] in a tracking-status response. *)
Definition tracking_of (r : JsonResponse) : option json :=
  match filter (fun kv => String.eqb (fst kv) "tracking") (data r) with
  | (_, v) :: _ => Some v
  | [] => None
  end.

(** The response with its ["tracking"] entry left out. *)
Definition without_tracking (r : JsonResponse) : JsonResponse :=
  {| data := filter (fun kv => negb (String.eqb (fst kv) "tracking")) (data r);
     content_type := content_type r |}.

(** Sample data for the other views. *)
Module Sample.

Definition pages : list HTMLFile.t :=
  [ {| HTMLFile.project_slug := "pip";
       HTMLFile.get_absolute_url := "https://pip.example.com/en/latest/" |};
    {| HTMLFile.project_slug := "manual";
       HTMLFile.get_absolute_url := "https://manual.example.com/install.html" |};
    {| HTMLFile.project_slug := "pip";
       HTMLFile.get_absolute_url := "https://pip.example.com/en/v2/usage.html" |} ].

Definition projects : list Project.t := [Demo.pip; Demo.manual].

(** [alice] administers [pip]; nobody else administers anything. *)
Definition admin_of (user : string) : list Project.t :=
  if String.eqb user "alice" then [Demo.pip] else [].

Definition url_of (name : string) (args : list string) : string :=
  "/dashboard/" ++ String.concat "/" args ++ "/" ++ name ++ "/".

Definition alice_posts : AuthRequest.t :=
  {| AuthRequest.user := "alice"; AuthRequest.method := "POST" |}.

Definition alice_gets : AuthRequest.t :=
  {| AuthRequest.user := "alice"; AuthRequest.method := "GET" |}.

Definition bob_posts : AuthRequest.t :=
  {| AuthRequest.user := "bob"; AuthRequest.method := "POST" |}.

Definition unset : Settings.t :=
  {| Settings.SUPPORT_EMAIL := None;
     Settings.PRODUCTION_DOMAIN := "readthedocs.org" |}.

(** [ContextMixin.get_context_data]: the keyword arguments, with the
    view under ["view"] unless given. *)
Definition with_view (kwargs : dict) : dict :=
  match dict_get kwargs "view" with
  | Some _ => kwargs
  | None => dict_set kwargs "view" (VStr "view")
  end.

Definition is_featured (p : Project.t) : bool :=
  String.eqb (Project.slug p) "pip".

End Sample.

(** ** Reasoning about the handlers *)

Section Proofs.
Context `{Collaborators}.

Lemma probes_app (t1 t2 : list event) :
  probes (t1 ++ t2) = (probes t1 ++ probes t2)%list.
Proof.
  induction t1 as [|e t1 IH]; simpl; [reflexivity|].
  destruct e; simpl; rewrite IH; reflexivity.
Qed.

Lemma probes_map_PathExists (paths : list string) :
  probes (map PathExists paths) = paths.
Proof.
  induction paths as [|p paths IH]; simpl; [|rewrite IH]; reflexivity.
Qed.

Lemma bind_ret_l {A B} (a : A) (f : A -> M B) : bind (ret a) f = f a.
Proof. unfold bind, ret. destruct (f a); reflexivity. Qed.

Lemma head_filter_find {A} (f : A -> bool) (l : list A) :
  match filter f l with [] => None | x :: _ => Some x end = find f l.
Proof.
  induction l as [|a l IH]; simpl; [reflexivity|].
  destruct (f a); [reflexivity | exact IH].
Qed.

(** *** [resolve_404_path] *)

Lemma resolve_404_path_raises project version_slug language filename :
  resolve_path project version_slug language filename true = "" ->
  resolve_404_path project version_slug language filename = raise IndexError.
Proof.
  intros E. unfold resolve_404_path. rewrite E. reflexivity.
Qed.

Lemma resolve_404_path_returns project version_slug language filename :
  resolve_path project version_slug language filename true <> "" ->
  let relative :=
    strip_one_sep (resolve_path project version_slug language filename true) in
  let basepath := selected_root project version_slug in
  resolve_404_path project version_slug language filename
  = ret (basepath, relative, os_path_join basepath relative).
Proof.
  intros NE relative basepath. subst relative basepath.
  unfold resolve_404_path, selected_root, strip_one_sep, version_record,
    versions_filter, root_of_privacy, any.
  destruct (resolve_path project version_slug language filename true)
    as [|c r] eqn:E; [congruence|].
  cbn [str_first startswith_sep]. rewrite bind_ret_l.
  destruct version_slug as [s|]; cbn [slug_truthy].
  - destruct (str_is_empty s); cbn [negb existsb].
    + rewrite orb_false_r. reflexivity.
    + rewrite head_filter_find.
      destruct (find _ (Project.versions project)) as [v|];
        rewrite ?orb_false_r; reflexivity.
  - cbn [existsb]. rewrite orb_false_r. reflexivity.
Qed.

Lemma resolve_404_path_cases project version_slug language filename :
  resolve_404_path project version_slug language filename = raise IndexError
  \/ exists basepath relative fullpath,
       resolve_404_path project version_slug language filename
       = ret (basepath, relative, fullpath).
Proof.
  destruct (resolve_path project version_slug language filename true)
    as [|c r] eqn:E.
  - left. apply resolve_404_path_raises. exact E.
  - right. do 3 eexists. apply resolve_404_path_returns.
    rewrite E. discriminate.
Qed.

(** *** One iteration of the search *)

Lemma for_candidates_raise request project language slug tryfile rest e :
  resolve_404_path project slug language tryfile = raise e ->
  for_candidates request project language ((slug, tryfile) :: rest) = raise e.
Proof. intros E. cbn [for_candidates]. rewrite E. reflexivity. Qed.

Lemma for_candidates_hit request project language slug tryfile rest b f fp :
  resolve_404_path project slug language tryfile = ret (b, f, fp) ->
  path_exists fp = true ->
  for_candidates request project language ((slug, tryfile) :: rest)
  = (inr (Some {| content := StaticFile f b; status_code := 404 |}),
     [PathExists fp; LogDebug (Project.slug project) slug]).
Proof.
  intros E X. cbn [for_candidates]. rewrite E, bind_ret_l.
  unfold os_path_exists, emit, log_debug, bind, ret. rewrite X. reflexivity.
Qed.

Lemma for_candidates_miss request project language slug tryfile rest b f fp :
  resolve_404_path project slug language tryfile = ret (b, f, fp) ->
  path_exists fp = false ->
  for_candidates request project language ((slug, tryfile) :: rest)
  = (fst (for_candidates request project language rest),
     PathExists fp :: snd (for_candidates request project language rest)).
Proof.
  intros E X. cbn [for_candidates]. rewrite E, bind_ret_l.
  unfold os_path_exists, emit, bind, ret. rewrite X.
  destruct (for_candidates request project language rest); reflexivity.
Qed.

(** *** The nested loops visit the flat candidate list *)

Lemma for_tryfile_flat request project slug language files :
  for_tryfile request project slug language files
  = for_candidates request project language (map (pair slug) files).
Proof.
  induction files as [|tryfile files IH]; cbn [for_tryfile for_candidates map];
    [reflexivity|].
  rewrite IH. reflexivity.
Qed.

Lemma for_candidates_app request project language xs ys :
  for_candidates request project language (xs ++ ys)
  = (r <- for_candidates request project language xs ;;
     match r with
     | Some r => ret (Some r)
     | None => for_candidates request project language ys
     end).
Proof.
  induction xs as [|[slug tryfile] xs IH].
  - cbn [app for_candidates]. rewrite bind_ret_l. reflexivity.
  - rewrite <- app_comm_cons.
    destruct (resolve_404_path_cases project slug language tryfile)
      as [E | (b & f & fp & E)].
    + rewrite !(for_candidates_raise _ _ _ _ _ _ _ E). reflexivity.
    + destruct (path_exists fp) eqn:X.
      * rewrite !(for_candidates_hit _ _ _ _ _ _ _ _ _ E X). reflexivity.
      * rewrite !(for_candidates_miss _ _ _ _ _ _ _ _ _ E X), IH.
        unfold bind.
        destruct (for_candidates request project language xs) as [[e|[r|]] t];
          cbn [fst snd]; try reflexivity.
        destruct (for_candidates request project language ys); reflexivity.
Qed.

Lemma for_slug_flat request project language slugs :
  for_slug request project language slugs
  = for_candidates request project language
      (flat_map (fun slug => map (pair slug) tryfiles) slugs).
Proof.
  induction slugs as [|slug slugs IH]; cbn [for_slug flat_map];
    [reflexivity|].
  rewrite for_candidates_app, for_tryfile_flat, IH. reflexivity.
Qed.

Lemma server_error_404_subdomain_flat request template_name :
  server_error_404_subdomain request template_name
  = let '(project, full_path) :=
      project_and_path_from_request request (Request.get_full_path request) in
    serve_or_default request template_name
      match project with
      | Some project =>
          let '(language, version_slug) :=
            language_and_version project full_path in
          for_candidates request project language
            (candidates version_slug (get_default_version project))
      | None => ret None
      end.
Proof.
  unfold server_error_404_subdomain, serve_or_default.
  destruct (project_and_path_from_request _ _) as [[project|] full_path];
    [|reflexivity].
  destruct (language_and_version project full_path) as [language version_slug].
  rewrite for_slug_flat. reflexivity.
Qed.

(** *** Runs of the search *)

Lemma for_candidates_all_miss request project language cands paths :
  Forall2 (misses project language) cands paths ->
  for_candidates request project language cands
  = (inr None, map PathExists paths).
Proof.
  induction 1 as [|[slug tryfile] fp cands paths (b & f & E & X) _ IH].
  - reflexivity.
  - cbn [fst snd] in E.
    rewrite (for_candidates_miss _ _ _ _ _ _ _ _ _ E X), IH. reflexivity.
Qed.


Lemma for_candidates_probes_le request project language cands :
  length (probes (snd (for_candidates request project language cands)))
  <= length cands.
Proof.
  induction cands as [|[slug tryfile] cands IH]; [apply le_n|].
  destruct (resolve_404_path_cases project slug language tryfile)
    as [E | (b & f & fp & E)].
  - rewrite (for_candidates_raise _ _ _ _ _ _ _ E). cbn. lia.
  - destruct (path_exists fp) eqn:X.
    + rewrite (for_candidates_hit _ _ _ _ _ _ _ _ _ E X). cbn. lia.
    + rewrite (for_candidates_miss _ _ _ _ _ _ _ _ _ E X). cbn. lia.
Qed.

Lemma for_candidates_served request project language cands r t :
  for_candidates request project language cands = (inr (Some r), t) ->
  status_code r = 404%Z /\ exists f b, content r = StaticFile f b.
Proof.
  revert t. induction cands as [|[slug tryfile] cands IH]; intros t.
  - discriminate.
  - destruct (resolve_404_path_cases project slug language tryfile)
      as [E | (b & f & fp & E)].
    + rewrite (for_candidates_raise _ _ _ _ _ _ _ E). discriminate.
    + destruct (path_exists fp) eqn:X.
      * rewrite (for_candidates_hit _ _ _ _ _ _ _ _ _ E X).
        intros [= <- _]. split; [reflexivity | do 2 eexists; reflexivity].
      * rewrite (for_candidates_miss _ _ _ _ _ _ _ _ _ E X).
        destruct (for_candidates request project language cands) as [res t'].
        cbn [fst snd]. intros [= -> _]. eapply IH. reflexivity.
Qed.

Lemma for_candidates_any_request request1 request2 project language cands :
  for_candidates request1 project language cands
  = for_candidates request2 project language cands.
Proof.
  induction cands as [|[slug tryfile] cands IH]; cbn [for_candidates];
    [reflexivity|].
  rewrite IH. reflexivity.
Qed.

Lemma serve_or_default_trace request template_name search :
  snd (serve_or_default request template_name search) = snd search.
Proof.
  unfold serve_or_default, bind, ret.
  destruct search as [[e|[r|]] t]; cbn [snd]; try reflexivity;
    apply app_nil_r.
Qed.

Lemma NoDup_map_inj {A B} (f : A -> B) (l : list A) (a b : A) :
  NoDup (map f l) -> In a l -> In b l -> f a = f b -> a = b.
Proof.
  induction l as [|x l IH]; cbn [map]; intros ND Ia Ib E; [destruct Ia|].
  inversion ND as [|? ? Hx ND']; subst.
  destruct Ia as [<-|Ia], Ib as [<-|Ib].
  - reflexivity.
  - exfalso. apply Hx. rewrite E. apply in_map. exact Ib.
  - exfalso. apply Hx. rewrite <- E. apply in_map. exact Ia.
  - apply IH; assumption.
Qed.

Lemma str_is_empty_false (s : string) : s <> "" -> str_is_empty s = false.
Proof. destruct s; [congruence | reflexivity]. Qed.

Lemma version_record_found project v :
  wf_versions project ->
  In v (Project.versions project) ->
  version_record project (Some (Version.slug v)) = Some v.
Proof.
  intros [ND _] Iv. unfold version_record.
  destruct (find _ (Project.versions project)) as [v'|] eqn:F.
  - apply find_some in F. destruct F as [Iv' E]. apply String.eqb_eq in E.
    f_equal. eapply NoDup_map_inj; eassumption.
  - exfalso. pose proof (find_none _ _ F v Iv) as E. cbv beta in E.
    rewrite String.eqb_refl in E. discriminate.
Qed.

Lemma version_record_absent project version_slug :
  (forall v, In v (Project.versions project) ->
             version_slug <> Some (Version.slug v)) ->
  version_record project version_slug = None.
Proof.
  intros Hno. destruct version_slug as [s|]; [|reflexivity].
  unfold version_record.
  destruct (find _ (Project.versions project)) as [v|] eqn:F; [|reflexivity].
  apply find_some in F. destruct F as [Iv E]. apply String.eqb_eq in E.
  exfalso. apply (Hno v Iv). congruence.
Qed.

(** *** The redirect phase of [server_error_404] *)

Lemma server_error_404_no_rule request template_name :
  get_redirect_response request (Request.get_full_path request) = None ->
  server_error_404 request template_name
  = without_redirect request template_name.
Proof.
  unfold server_error_404, without_redirect. intros ->. apply bind_ret_l.
Qed.

Lemma server_error_404_loop request template_name response :
  get_redirect_response request (Request.get_full_path request)
    = Some response ->
  url response = Request.build_absolute_uri request ->
  server_error_404 request template_name
  = (fst (without_redirect request template_name),
     LogWarning (url response)
       :: snd (without_redirect request template_name)).
Proof.
  unfold server_error_404, without_redirect. intros -> E.
  apply String.eqb_eq in E. rewrite E.
  unfold log_warning, emit, bind, ret.
  destruct (if Request.subdomain request || Request.cname request
            then _ else _); reflexivity.
Qed.

Lemma server_error_404_redirects request template_name response :
  get_redirect_response request (Request.get_full_path request)
    = Some response ->
  url response <> Request.build_absolute_uri request ->
  server_error_404 request template_name = ret (redirect_response response).
Proof.
  unfold server_error_404. intros -> NE.
  apply String.eqb_neq in NE. rewrite NE, bind_ret_l. reflexivity.
Qed.

(** ** The claims *)


(** C2: when the redirect lookup answers with the absolute URL of the
    request itself, [server_error_404] logs a warning and then does
    exactly what it does when the lookup finds nothing; when the target
    differs, the redirect response is returned as it is. *)
Theorem redirect_loop_is_logged_and_skipped request template_name :
  (get_redirect_response request (Request.get_full_path request) = None ->
   server_error_404 request template_name
   = without_redirect request template_name)
  /\ (forall response,
       get_redirect_response request (Request.get_full_path request)
         = Some response ->
       url response = Request.build_absolute_uri request ->
       server_error_404 request template_name
       = (fst (without_redirect request template_name),
          LogWarning (url response)
            :: snd (without_redirect request template_name)))
  /\ (forall response,
       get_redirect_response request (Request.get_full_path request)
         = Some response ->
       url response <> Request.build_absolute_uri request ->
       server_error_404 request template_name
       = ret (redirect_response response)).
Proof.
  split; [|split].
  - apply server_error_404_no_rule.
  - apply server_error_404_loop.
  - apply server_error_404_redirects.
Qed.

(** C3: for a project whose version records have non-empty, unique
    slugs, every candidate that resolves gets its root from the
    effective privacy: a version record with the candidate's slug
    decides by its own privacy level (private root for 'private', public
    root otherwise); without such a record, the slug being absent
    included, the project's privacy level decides the same way. *)
Theorem root_follows_effective_privacy
    project version_slug language tryfile :
  wf_versions project ->
  resolve_path project version_slug language tryfile true <> "" ->
  exists basepath relative fullpath,
    resolve_404_path project version_slug language tryfile
    = ret (basepath, relative, fullpath)
    /\ (forall v, In v (Project.versions project) ->
                  version_slug = Some (Version.slug v) ->
                  basepath = root_of_privacy project (Version.privacy_level v))
    /\ ((forall v, In v (Project.versions project) ->
                   version_slug <> Some (Version.slug v)) ->
        basepath = root_of_privacy project (Project.privacy_level project)).
Proof.
  intros WF NE. do 3 eexists. split; [|split].
  - apply resolve_404_path_returns. exact NE.
  - intros v Iv ->. unfold selected_root. cbn [slug_truthy].
    rewrite (version_record_found project v WF Iv).
    destruct WF as [_ NEs]. rewrite Forall_forall in NEs.
    rewrite (str_is_empty_false _ (NEs v Iv)). reflexivity.
  - intros Hno. unfold selected_root.
    rewrite (version_record_absent _ _ Hno).
    destruct (slug_truthy version_slug); reflexivity.
Qed.


(** C6: for a project that is not single_version the search runs with
    the language and version slug that [language_and_version_from_path]
    takes from the parsed path, over the slugs (that version slug,
    default version); for a single_version project the decomposition is
    not consulted, language and version slug are both [None], and the
    slugs are ([None], default version). *)
Theorem decomposition_skipped_for_single_version
    request template_name project full_path :
  project_and_path_from_request request (Request.get_full_path request)
    = (Some project, full_path) ->
  (Project.single_version project = false ->
   forall language version_slug file_path,
     language_and_version_from_path (ParseResult.path (urlparse full_path))
       = (language, version_slug, file_path) ->
     server_error_404_subdomain request template_name
     = serve_or_default request template_name
         (for_slug request project language
            [version_slug; Some (get_default_version project)]))
  /\ (Project.single_version project = true ->
      server_error_404_subdomain request template_name
      = serve_or_default request template_name
          (for_slug request project None
             [None; Some (get_default_version project)])).
Proof.
  intros HP. unfold server_error_404_subdomain, language_and_version.
  rewrite HP. split.
  - intros S language version_slug file_path D. rewrite S, D. reflexivity.
  - intros S. rewrite S. reflexivity.
Qed.

(** C7: a request that gets no usable redirect and carries neither a
    subdomain nor a cname is answered with the default template and
    status 404 without a single existence check; the subdomain handler
    gives the same answer when no project is found and when every
    candidate resolves to a path that does not exist. *)
Theorem default_404_when_no_custom_page request template_name :
  (Request.subdomain request = false ->
   Request.cname request = false ->
   (forall response,
       get_redirect_response request (Request.get_full_path request)
         = Some response ->
       url response = Request.build_absolute_uri request) ->
   exists trace,
     server_error_404 request template_name
     = (inr {| content := Rendered template_name; status_code := 404 |},
        trace)
     /\ probes trace = [])
  /\ (forall full_path,
        project_and_path_from_request request (Request.get_full_path request)
          = (None, full_path) ->
        server_error_404_subdomain request template_name
        = ret {| content := Rendered template_name; status_code := 404 |})
  /\ (forall project full_path language version_slug paths,
        project_and_path_from_request request (Request.get_full_path request)
          = (Some project, full_path) ->
        language_and_version project full_path = (language, version_slug) ->
        Forall2 (misses project language)
          (candidates version_slug (get_default_version project)) paths ->
        server_error_404_subdomain request template_name
        = (inr {| content := Rendered template_name; status_code := 404 |},
           map PathExists paths)).
Proof.
  split; [|split].
  - intros S C L.
    assert (W : without_redirect request template_name
                = ret (default_404 request template_name))
      by (unfold without_redirect; rewrite S, C; reflexivity).
    destruct (get_redirect_response request (Request.get_full_path request))
      as [response|] eqn:R.
    + rewrite (server_error_404_loop _ _ _ R (L response eq_refl)), W.
      eexists. split; reflexivity.
    + rewrite (server_error_404_no_rule _ _ R), W.
      eexists. split; reflexivity.
  - intros full_path HP. rewrite server_error_404_subdomain_flat, HP.
    reflexivity.
  - intros project full_path language version_slug paths HP HL HM.
    rewrite server_error_404_subdomain_flat, HP, HL.
    rewrite (for_candidates_all_miss request _ _ _ _ HM).
    unfold serve_or_default, bind, ret. rewrite app_nil_r. reflexivity.
Qed.

(** C8: every run of the subdomain handler ends, with a response or
    an exception, after at most four existence checks, one per
    candidate; so does every run of [server_error_404]. *)
Theorem at_most_four_existence_checks request template_name :
  (exists result trace,
      server_error_404_subdomain request template_name = (result, trace)
      /\ length (probes trace) <= 4)
  /\ (exists result trace,
        server_error_404 request template_name = (result, trace)
        /\ length (probes trace) <= 4).
Proof.
  assert (S : length (probes (snd (server_error_404_subdomain
                                     request template_name))) <= 4).
  { rewrite server_error_404_subdomain_flat.
    destruct (project_and_path_from_request _ _) as [[project|] full_path];
      rewrite serve_or_default_trace.
    - destruct (language_and_version project full_path)
        as [language version_slug].
      apply (for_candidates_probes_le request project language
               (candidates version_slug (get_default_version project))).
    - cbn. lia. }
  split.
  - destruct (server_error_404_subdomain request template_name)
      as [result trace]. exists result, trace. split; [reflexivity | exact S].
  - assert (W : length (probes (snd (without_redirect
                                        request template_name))) <= 4).
    { unfold without_redirect.
      destruct (Request.subdomain request || Request.cname request);
        [exact S | cbn; lia]. }
    destruct (get_redirect_response request (Request.get_full_path request))
      as [response|] eqn:R.
    + destruct (String.eqb_spec (url response)
                  (Request.build_absolute_uri request)) as [E|NE].
      * rewrite (server_error_404_loop _ _ _ R E).
        do 2 eexists. split; [reflexivity | exact W].
      * rewrite (server_error_404_redirects _ _ _ R NE).
        do 2 eexists. split; [reflexivity | cbn; lia].
    + rewrite (server_error_404_no_rule _ _ R).
      destruct (without_redirect request template_name) as [result trace].
      exists result, trace. split; [reflexivity | exact W].
Qed.

(** C9: [resolve_404_path] removes one leading character at most.  A
    resolver path starting with two separators leaves a relative path
    that still starts with one; whatever is returned is at most one
    character shorter than the resolver path; and the helper returns
    exactly when the resolver path is non-empty, raising [IndexError]
    on the empty one. *)
Theorem one_separator_stripped
    project version_slug language tryfile :
  (forall rest,
      resolve_path project version_slug language tryfile true
        = String "/" (String "/" rest) ->
      exists basepath fullpath,
        resolve_404_path project version_slug language tryfile
        = ret (basepath, String "/" rest, fullpath))
  /\ (forall basepath relative fullpath t,
        resolve_404_path project version_slug language tryfile
          = (inr (basepath, relative, fullpath), t) ->
        resolve_path project version_slug language tryfile true <> ""
        /\ String.length (resolve_path project version_slug language
                            tryfile true)
           <= S (String.length relative))
  /\ (resolve_path project version_slug language tryfile true = "" ->
      resolve_404_path project version_slug language tryfile
      = raise IndexError).
Proof.
  split; [|split].
  - intros rest R.
    assert (NE : resolve_path project version_slug language tryfile true <> "")
      by (rewrite R; discriminate).
    rewrite (resolve_404_path_returns _ _ _ _ NE). cbv zeta. rewrite R.
    do 2 eexists. reflexivity.
  - intros basepath relative fullpath t E.
    destruct (resolve_path project version_slug language tryfile true)
      as [|c r] eqn:R.
    + rewrite (resolve_404_path_raises _ _ _ _ R) in E. discriminate.
    + split; [discriminate|].
      assert (NE : resolve_path project version_slug language tryfile true
                   <> "") by (rewrite R; discriminate).
      rewrite (resolve_404_path_returns _ _ _ _ NE) in E. cbv zeta in E.
      rewrite R in E. injection E as _ <- _.
      unfold strip_one_sep. cbn [startswith_sep str_tail].
      destruct (Ascii.eqb c "/"); cbn [String.length]; lia.
  - apply resolve_404_path_raises.
Qed.

(** C10: two requests that reach the same project, not single_version,
    and whose parsed paths give the same language and version slug,
    make the same existence checks in the same order, whatever the rest
    of their paths, their query strings and their fragments are. *)
Theorem probes_depend_on_language_and_version_only
    request1 request2 template1 template2 project full_path1 full_path2
    language version_slug file_path1 file_path2 :
  project_and_path_from_request request1 (Request.get_full_path request1)
    = (Some project, full_path1) ->
  project_and_path_from_request request2 (Request.get_full_path request2)
    = (Some project, full_path2) ->
  Project.single_version project = false ->
  language_and_version_from_path (ParseResult.path (urlparse full_path1))
    = (language, version_slug, file_path1) ->
  language_and_version_from_path (ParseResult.path (urlparse full_path2))
    = (language, version_slug, file_path2) ->
  probes (snd (server_error_404_subdomain request1 template1))
  = probes (snd (server_error_404_subdomain request2 template2)).
Proof.
  intros HP1 HP2 S D1 D2.
  rewrite !server_error_404_subdomain_flat, HP1, HP2.
  unfold language_and_version. rewrite S. cbn [negb]. rewrite D1, D2.
  rewrite !serve_or_default_trace.
  rewrite (for_candidates_any_request request1 request2). reflexivity.
Qed.

End Proofs.

(** ** The claims on the sample deployment *)


Lemma redirect_loop_is_logged_and_skipped_witness :
  @server_error_404 Demo.site (Demo.on_subdomain "/en/v2/gone/") "404.html"
  = @without_redirect Demo.site (Demo.on_subdomain "/en/v2/gone/") "404.html"
  /\ @server_error_404 Demo.site (Demo.on_subdomain "/loop/") "404.html"
     = (fst (@without_redirect Demo.site
               (Demo.on_subdomain "/loop/") "404.html"),
        LogWarning "https://pip.example.com/loop/"
          :: snd (@without_redirect Demo.site
                    (Demo.on_subdomain "/loop/") "404.html"))
  /\ @server_error_404 Demo.site (Demo.on_subdomain "/old/") "404.html"
     = ret {| content := RedirectTo "https://pip.example.com/new/";
              status_code := 302 |}.
Proof.
  split; [|split].
  - apply (proj1 (@redirect_loop_is_logged_and_skipped Demo.site
                    (Demo.on_subdomain "/en/v2/gone/") "404.html")).
    reflexivity.
  - apply (proj1 (proj2 (@redirect_loop_is_logged_and_skipped Demo.site
                           (Demo.on_subdomain "/loop/") "404.html"))
             {| url := "https://pip.example.com/loop/";
                redirect_status_code := 302 |}); reflexivity.
  - apply (proj2 (proj2 (@redirect_loop_is_logged_and_skipped Demo.site
                           (Demo.on_subdomain "/old/") "404.html"))
             {| url := "https://pip.example.com/new/";
                redirect_status_code := 302 |}).
    + reflexivity.
    + apply String.eqb_neq. reflexivity.
Defined.

Lemma wf_versions_pip : @wf_versions Demo.pip.
Proof.
  split.
  - repeat constructor; cbn; intuition discriminate.
  - repeat constructor; cbn; discriminate.
Defined.

Lemma root_follows_effective_privacy_witness :
  Project.privacy_level Demo.pip = "public"
  /\ exists basepath relative fullpath,
      @resolve_404_path Demo.site Demo.pip (Some "v2") (Some "en") "404.html"
      = ret (basepath, relative, fullpath)
      /\ basepath = "/private_web_root/pip".
Proof.
  split; [reflexivity|].
  destruct (@root_follows_effective_privacy Demo.site Demo.pip
              (Some "v2") (Some "en") "404.html" wf_versions_pip)
    as (basepath & relative & fullpath & E & byVersion & _).
  - discriminate.
  - exists basepath, relative, fullpath. split; [exact E|].
    apply (byVersion Demo.v2); [left|]; reflexivity.
Defined.


Lemma decomposition_skipped_for_single_version_witness :
  @server_error_404_subdomain Demo.site
    (Demo.on_subdomain "/en/v2/missing-page/") "404.html"
  = serve_or_default
      (Demo.on_subdomain "/en/v2/missing-page/") "404.html"
      (@for_slug Demo.site (Demo.on_subdomain "/en/v2/missing-page/")
         Demo.pip (Some "en") [Some "v2"; Some "latest"])
  /\ @server_error_404_subdomain Demo.manual_site
       (Demo.on_subdomain "/en/v2/missing-page/") "404.html"
     = serve_or_default
         (Demo.on_subdomain "/en/v2/missing-page/") "404.html"
         (@for_slug Demo.manual_site
            (Demo.on_subdomain "/en/v2/missing-page/")
            Demo.manual None [None; Some "latest"]).
Proof.
  split.
  - apply (proj1 (@decomposition_skipped_for_single_version Demo.site
                    (Demo.on_subdomain "/en/v2/missing-page/") "404.html"
                    Demo.pip "/en/v2/missing-page/" eq_refl)
             eq_refl (Some "en") (Some "v2") "/missing-page/").
    reflexivity.
  - apply (proj2 (@decomposition_skipped_for_single_version Demo.manual_site
                    (Demo.on_subdomain "/en/v2/missing-page/") "404.html"
                    Demo.manual "/en/v2/missing-page/" eq_refl)).
    reflexivity.
Defined.

Lemma default_404_when_no_custom_page_witness :
  (exists trace,
      @server_error_404 Demo.site (Demo.on_platform "/en/v2/gone/") "404.html"
      = (inr {| content := Rendered "404.html"; status_code := 404 |}, trace)
      /\ probes trace = [])
  /\ @server_error_404_subdomain Demo.site
       (Demo.on_platform "/en/v2/missing-page/") "404.html"
     = ret {| content := Rendered "404.html"; status_code := 404 |}
  /\ @server_error_404_subdomain Demo.bare_site
       (Demo.on_subdomain "/en/v1/missing-page/") "404.html"
     = (inr {| content := Rendered "404.html"; status_code := 404 |},
        map PathExists
          [ "/public_web_root/pip/en/v1/404.html";
            "/public_web_root/pip/en/v1/404/index.html";
            "/public_web_root/pip/en/latest/404.html";
            "/public_web_root/pip/en/latest/404/index.html" ]).
Proof.
  split; [|split].
  - apply (proj1 (@default_404_when_no_custom_page Demo.site
                    (Demo.on_platform "/en/v2/gone/") "404.html"));
      try reflexivity.
    intros response E. discriminate E.
  - apply (proj1 (proj2 (@default_404_when_no_custom_page Demo.site
                           (Demo.on_platform "/en/v2/missing-page/")
                           "404.html")) "/en/v2/missing-page/").
    reflexivity.
  - apply (proj2 (proj2 (@default_404_when_no_custom_page Demo.bare_site
                           (Demo.on_subdomain "/en/v1/missing-page/")
                           "404.html"))
             Demo.pip "/en/v1/missing-page/" (Some "en") (Some "v1")).
    + reflexivity.
    + reflexivity.
    + repeat constructor;
        eexists _, _; split; reflexivity.
Defined.

Lemma one_separator_stripped_witness :
  (exists basepath fullpath,
      @resolve_404_path Demo.doubled_site Demo.pip (Some "v2") (Some "en")
        "404.html"
      = ret (basepath, "/en/v2/404.html", fullpath))
  /\ String.length "//en/v2/404.html" <= S (String.length "/en/v2/404.html")
  /\ @resolve_404_path Demo.empty_site Demo.pip (Some "v2") (Some "en")
       "404.html"
     = raise IndexError.
Proof.
  split; [|split].
  - apply (proj1 (@one_separator_stripped Demo.doubled_site Demo.pip
                    (Some "v2") (Some "en") "404.html")).
    reflexivity.
  - apply (proj1 (proj2 (@one_separator_stripped Demo.doubled_site Demo.pip
                           (Some "v2") (Some "en") "404.html"))
             "/private_web_root/pip" "/en/v2/404.html" "/en/v2/404.html" []).
    reflexivity.
  - apply (proj2 (proj2 (@one_separator_stripped Demo.empty_site Demo.pip
                           (Some "v2") (Some "en") "404.html"))).
    reflexivity.
Defined.

Lemma probes_depend_on_language_and_version_only_witness :
  probes (snd (@server_error_404_subdomain Demo.site
                 (Demo.on_subdomain "/en/v2/missing-page/?q=1#top")
                 "404.html"))
  = probes (snd (@server_error_404_subdomain Demo.site
                   (Demo.on_subdomain "/en/v2/api/index.html") "404.html")).
Proof.
  apply (@probes_depend_on_language_and_version_only Demo.site
           (Demo.on_subdomain "/en/v2/missing-page/?q=1#top")
           (Demo.on_subdomain "/en/v2/api/index.html")
           "404.html" "404.html" Demo.pip
           "/en/v2/missing-page/?q=1#top" "/en/v2/api/index.html"
           (Some "en") (Some "v2") "/missing-page/" "/api/index.html");
    reflexivity.
Defined.

(** ** Further properties of the 404 handlers *)

Section Further.
Context `{Collaborators}.

Lemma resolve_404_path_inv project version_slug language tryfile b f fp t :
  resolve_404_path project version_slug language tryfile
    = (inr (b, f, fp), t) ->
  resolve_path project version_slug language tryfile true <> ""
  /\ b = selected_root project version_slug
  /\ f = strip_one_sep
           (resolve_path project version_slug language tryfile true)
  /\ fp = os_path_join b f
  /\ t = [].
Proof.
  intros E.
  destruct (resolve_path project version_slug language tryfile true)
    as [|c r] eqn:R.
  - rewrite (resolve_404_path_raises _ _ _ _ R) in E. discriminate.
  - assert (NE : resolve_path project version_slug language tryfile true <> "")
      by (rewrite R; discriminate).
    rewrite (resolve_404_path_returns _ _ _ _ NE) in E. cbv zeta in E.
    rewrite R in E. injection E as <- <- <- <-.
    repeat split; discriminate.
Qed.

Lemma misses_missing project language cands paths :
  Forall2 (misses project language) cands paths ->
  Forall missing paths /\ length paths = length cands.
Proof.
  induction 1 as [|c fp cands paths (b & f & _ & X) _ [IHm IHl]].
  - split; [constructor | reflexivity].
  - split; [constructor; assumption | cbn; rewrite IHl; reflexivity].
Qed.

(** Every way a pass over the candidates can end. *)
Lemma for_candidates_inv request project language cands res t :
  for_candidates request project language cands = (res, t) ->
  match res with
  | inr None =>
      exists paths,
        Forall2 (misses project language) cands paths
        /\ t = map PathExists paths
  | inr (Some r) =>
      exists pre paths c post b f fp,
        cands = (pre ++ c :: post)%list
        /\ Forall2 (misses project language) pre paths
        /\ resolve_404_path project (fst c) language (snd c) = ret (b, f, fp)
        /\ path_exists fp = true
        /\ r = {| content := StaticFile f b; status_code := 404 |}
        /\ t = (map PathExists paths
                ++ [PathExists fp; LogDebug (Project.slug project) (fst c)])%list
  | inl _ =>
      exists pre paths c post,
        cands = (pre ++ c :: post)%list
        /\ Forall2 (misses project language) pre paths
        /\ resolve_path project (fst c) language (snd c) true = ""
        /\ t = map PathExists paths
  end.
Proof.
  revert res t. induction cands as [|[slug tryfile] cands IH]; intros res t E.
  - cbn in E. injection E as <- <-. exists []. split; constructor.
  - destruct (resolve_path project slug language tryfile true)
      as [|ch r] eqn:R.
    + rewrite (for_candidates_raise _ _ _ _ _ _ _
                 (resolve_404_path_raises _ _ _ _ R)) in E.
      injection E as <- <-.
      exists [], [], (slug, tryfile), cands.
      repeat split; [constructor | exact R].
    + assert (NE : resolve_path project slug language tryfile true <> "")
        by (rewrite R; discriminate).
      pose proof (resolve_404_path_returns _ _ _ _ NE) as P. cbv zeta in P.
      remember (selected_root project slug) as b eqn:Hb.
      remember (strip_one_sep
                  (resolve_path project slug language tryfile true))
        as f eqn:Hf.
      remember (os_path_join b f) as fp eqn:Hfp.
      clear Hb Hf Hfp R NE.
      destruct (path_exists fp) eqn:X.
      * rewrite (for_candidates_hit _ _ _ _ _ _ _ _ _ P X) in E.
        injection E as <- <-.
        exists [], [], (slug, tryfile), cands, b, f, fp.
        repeat split; try assumption. constructor.
      * rewrite (for_candidates_miss _ _ _ _ _ _ _ _ _ P X) in E.
        destruct (for_candidates request project language cands)
          as [res' t'] eqn:E'.
        cbn [fst snd] in E. injection E as <- <-.
        specialize (IH _ _ eq_refl).
        assert (M : misses project language (slug, tryfile) fp)
          by (exists b, f; split; assumption).
        destruct res' as [e|[r'|]].
        -- destruct IH as (pre & paths & c & post & -> & F & Rc & ->).
           exists ((slug, tryfile) :: pre), (fp :: paths), c, post.
           repeat split; try assumption. constructor; assumption.
        -- destruct IH
             as (pre & paths & c & post & b' & f' & fp' & -> & F & Rc & Xc
                 & -> & ->).
           exists ((slug, tryfile) :: pre), (fp :: paths), c, post, b', f', fp'.
           repeat split; try assumption. constructor; assumption.
        -- destruct IH as (paths & F & ->).
           exists (fp :: paths). split; [constructor; assumption | reflexivity].
Qed.

Lemma server_error_404_subdomain_search request template_name :
  server_error_404_subdomain request template_name
  = serve_or_default request template_name (subdomain_search request).
Proof.
  rewrite server_error_404_subdomain_flat. unfold subdomain_search.
  destruct (project_and_path_from_request _ _) as [[project|] full_path];
    reflexivity.
Qed.

Lemma serve_or_default_inv request template_name search res t :
  serve_or_default request template_name search = (res, t) ->
  snd search = t
  /\ match res with
     | inl e => fst search = inl e
     | inr r =>
         fst search = inr (Some r)
         \/ (fst search = inr None /\ r = default_404 request template_name)
     end.
Proof.
  unfold serve_or_default, bind, ret.
  destruct search as [[e|[r|]] t']; cbn [fst snd]; intros [= <- <-];
    rewrite ?app_nil_r; split; auto.
Qed.

Lemma prefix_app (a x : string) : String.prefix a (a ++ x) = true.
Proof.
  induction a as [|c a IH]; cbn; [destruct x; reflexivity|].
  destruct (ascii_dec c c); [exact IH | congruence].
Qed.

Lemma os_path_join_relative (a b : string) :
  startswith_sep b = false ->
  os_path_join a b = a ++ b \/ os_path_join a b = a ++ "/" ++ b.
Proof.
  intros R. unfold os_path_join. rewrite R.
  destruct (str_is_empty a || endswith_sep a); auto.
Qed.

Lemma strip_one_sep_relative (s : string) :
  startswith_two_seps s = false -> startswith_sep (strip_one_sep s) = false.
Proof.
  unfold strip_one_sep. destruct s as [|c r]; [reflexivity|].
  cbn [startswith_sep startswith_two_seps str_tail].
  destruct (Ascii.eqb c "/") eqn:C; [|intros _; exact C].
  destruct r as [|c' r']; [reflexivity|]. cbn [andb startswith_sep]. auto.
Qed.

Lemma subdomain_search_inv request res t :
  subdomain_search request = (res, t) ->
  (exists full_path,
      project_and_path_from_request request (Request.get_full_path request)
        = (None, full_path)
      /\ res = inr None /\ t = [])
  \/ exists project full_path language version_slug,
       project_and_path_from_request request (Request.get_full_path request)
         = (Some project, full_path)
       /\ language_and_version project full_path = (language, version_slug)
       /\ for_candidates request project language
            (candidates version_slug (get_default_version project))
          = (res, t).
Proof.
  unfold subdomain_search.
  destruct (project_and_path_from_request _ _) as [[project|] full_path].
  - destruct (language_and_version project full_path)
      as [language version_slug] eqn:L.
    intros E. right. exists project, full_path, language, version_slug.
    repeat split; assumption.
  - intros [= <- <-]. left. exists full_path. repeat split.
Qed.

Lemma server_error_404_subdomain_response request template_name r t :
  server_error_404_subdomain request template_name = (inr r, t) ->
  status_code r = 404%Z
  /\ ((exists f b, content r = StaticFile f b)
      \/ content r = Rendered template_name).
Proof.
  rewrite server_error_404_subdomain_search. intros E.
  apply serve_or_default_inv in E. destruct E as [T [S | [_ ->]]].
  - destruct (subdomain_search request) as [res t'] eqn:Q.
    cbn [fst snd] in *. subst.
    apply subdomain_search_inv in Q.
    destruct Q as [(_ & _ & D & _) | (project & _ & language & slug & _ & _ & F)];
      [discriminate|].
    apply for_candidates_served in F. destruct F as [S C].
    split; [exact S | left; exact C].
  - split; [reflexivity | right; reflexivity].
Qed.

(** X1: a stored file is only ever served after [os.path.exists]
    accepted its full path: that check is the last one of the run, and
    every check before it was refused. *)
Theorem served_file_passed_the_existence_check
    request template_name r trace f b :
  server_error_404_subdomain request template_name = (inr r, trace) ->
  content r = StaticFile f b ->
  status_code r = 404%Z
  /\ path_exists (os_path_join b f) = true
  /\ exists earlier,
       probes trace = (earlier ++ [os_path_join b f])%list
       /\ Forall missing earlier.
Proof.
  rewrite server_error_404_subdomain_search. intros E C.
  apply serve_or_default_inv in E.
  destruct E as [T [S | [_ ->]]]; [|discriminate].
  destruct (subdomain_search request) as [res t'] eqn:Q.
  cbn [fst snd] in *. subst.
  apply subdomain_search_inv in Q.
  destruct Q as [(_ & _ & D & _) | (project & _ & language & slug & _ & _ & F)];
    [discriminate|].
  apply for_candidates_inv in F.
  destruct F as (pre & paths & c & post & b' & f' & fp & _ & Fm & Rc & X
                 & -> & ->).
  cbn [content] in C. injection C as <- <-.
  apply resolve_404_path_inv in Rc. destruct Rc as (_ & _ & _ & -> & _).
  split; [reflexivity|]. split; [exact X|].
  exists paths. split.
  - rewrite probes_app, probes_map_PathExists. reflexivity.
  - apply (misses_missing _ _ _ _ Fm).
Qed.

(** X2: when the subdomain handler answers with a rendered template,
    it is the template it was given, with status 404, and every
    existence check of the run was refused; if a project was found,
    all four candidates were checked. *)
Theorem default_page_means_every_candidate_missed
    request template_name r trace shown :
  server_error_404_subdomain request template_name = (inr r, trace) ->
  content r = Rendered shown ->
  shown = template_name
  /\ status_code r = 404%Z
  /\ Forall missing (probes trace)
  /\ (forall project full_path,
        project_and_path_from_request request (Request.get_full_path request)
          = (Some project, full_path) ->
        length (probes trace) = 4).
Proof.
  rewrite server_error_404_subdomain_search. intros E C.
  apply serve_or_default_inv in E.
  destruct (subdomain_search request) as [res t'] eqn:Q.
  cbn [fst snd] in E. destruct E as [<- [-> | [-> ->]]].
  - apply subdomain_search_inv in Q.
    destruct Q as [(_ & _ & D & _) | (project & _ & language & slug & _ & _ & F)];
      [discriminate|].
    apply for_candidates_served in F. destruct F as [_ (f & b & F)].
    congruence.
  - cbn [content default_404 set_status_code render] in C.
    injection C as <-.
    split; [reflexivity|]. split; [reflexivity|].
    apply subdomain_search_inv in Q.
    destruct Q as [(fp0 & P & _ & ->)
                  | (project & fp & language & slug & P & _ & F)].
    + split; [constructor|]. intros project full_path P'. congruence.
    + apply for_candidates_inv in F. destruct F as (paths & Fm & ->).
      rewrite probes_map_PathExists.
      destruct (misses_missing _ _ _ _ Fm) as [Mi Le].
      split; [exact Mi|]. intros _ _ _. rewrite Le. reflexivity.
Qed.

(** X3: [server_error_404] never answers with a redirect to the
    absolute URL of the request itself; a redirect it returns comes
    with no log record and no existence check, and every response that
    is not a redirect has status 404. *)
Theorem no_redirect_to_the_request_itself request template_name r trace :
  server_error_404 request template_name = (inr r, trace) ->
  (forall location,
      content r = RedirectTo location ->
      location <> Request.build_absolute_uri request /\ trace = [])
  /\ ((exists location, content r = RedirectTo location)
      \/ status_code r = 404%Z).
Proof.
  intros E.
  assert (W : forall r' t', without_redirect request template_name = (inr r', t') ->
              status_code r' = 404%Z
              /\ forall location, content r' <> RedirectTo location).
  { unfold without_redirect. intros r' t'.
    destruct (Request.subdomain request || Request.cname request).
    - intros Q. apply server_error_404_subdomain_response in Q.
      destruct Q as [S [(f & b & C) | C]]; (split; [exact S|]);
        intros location; rewrite C; discriminate.
    - intros [= <- _]. split; [reflexivity | discriminate]. }
  destruct (get_redirect_response request (Request.get_full_path request))
    as [response|] eqn:R.
  - destruct (String.eqb_spec (url response)
                (Request.build_absolute_uri request)) as [L|NL].
    + rewrite (server_error_404_loop _ _ _ R L) in E.
      destruct (without_redirect request template_name) as [res t'] eqn:Q.
      cbn [fst snd] in E. injection E as -> <-.
      destruct (W _ _ eq_refl) as [S N].
      split; [|right; exact S]. intros location C. destruct (N _ C).
    + rewrite (server_error_404_redirects _ _ _ R NL) in E.
      injection E as <- <-. split.
      * intros location [= <-]. split; [exact NL | reflexivity].
      * left. eexists. reflexivity.
  - rewrite (server_error_404_no_rule _ _ R) in E.
    destruct (W _ _ E) as [S N].
    split; [|right; exact S]. intros location C. destruct (N _ C).
Qed.

(** X4: unless the resolver's path starts with two separators, the
    full path a candidate resolves to lies below the chosen root: it is
    the root, one separator if the root does not end with one, and the
    relative path; and the root is one of the project's two roots. *)
Theorem resolved_path_stays_below_root
    project version_slug language tryfile b f fp t :
  resolve_404_path project version_slug language tryfile
    = (inr (b, f, fp), t) ->
  startswith_two_seps
    (resolve_path project version_slug language tryfile true) = false ->
  String.prefix b fp = true
  /\ (fp = b ++ f \/ fp = b ++ "/" ++ f)
  /\ (b = PrivateSymlink_project_root project
      \/ b = PublicSymlink_project_root project).
Proof.
  intros E D. apply resolve_404_path_inv in E.
  destruct E as (_ & Hb & Hf & Hfp & _).
  assert (J : fp = b ++ f \/ fp = b ++ "/" ++ f).
  { rewrite Hfp. apply os_path_join_relative. rewrite Hf.
    apply strip_one_sep_relative. exact D. }
  split; [|split].
  - destruct J as [-> | ->]; apply prefix_app.
  - exact J.
  - rewrite Hb. unfold selected_root, root_of_privacy.
    destruct (if slug_truthy version_slug then _ else _) as [v|];
      destruct (String.eqb _ PRIVATE); auto.
Qed.

(** X5: for a single_version project the existence checks and log
    records of the search are the same for every request that reaches
    the project, whatever its path. *)
Theorem single_version_search_ignores_the_path
    request1 request2 template1 template2 project full_path1 full_path2 :
  project_and_path_from_request request1 (Request.get_full_path request1)
    = (Some project, full_path1) ->
  project_and_path_from_request request2 (Request.get_full_path request2)
    = (Some project, full_path2) ->
  Project.single_version project = true ->
  snd (server_error_404_subdomain request1 template1)
  = snd (server_error_404_subdomain request2 template2).
Proof.
  intros P1 P2 S.
  rewrite !server_error_404_subdomain_flat, P1, P2.
  unfold language_and_version. rewrite S. cbn [negb].
  rewrite !serve_or_default_trace.
  rewrite (for_candidates_any_request request1 request2). reflexivity.
Qed.

(** X6: the search does not remember what it checked: when the
    request names the default version and neither of its two paths
    exists, both paths are checked a second time before the default
    page is returned. *)
Theorem default_version_is_checked_twice
    request template_name project full_path language a b :
  project_and_path_from_request request (Request.get_full_path request)
    = (Some project, full_path) ->
  language_and_version project full_path
    = (language, Some (get_default_version project)) ->
  misses project language
    (Some (get_default_version project), "404.html") a ->
  misses project language
    (Some (get_default_version project), "404/index.html") b ->
  exists trace,
    server_error_404_subdomain request template_name
      = (inr (default_404 request template_name), trace)
    /\ probes trace = [a; b; a; b].
Proof.
  intros P L Ma Mb.
  rewrite server_error_404_subdomain_flat, P, L.
  rewrite (for_candidates_all_miss request project language _ [a; b; a; b]).
  - eexists. split; reflexivity.
  - repeat constructor; assumption.
Qed.

(** X7: the [IndexError] of the handler's own [filename[0]] test
    comes up only when a project was found and the resolver gave the
    empty path for one of its four candidates; every existence check
    made before it was refused.  Exceptions raised inside the
    collaborators are another matter. *)
Theorem index_error_means_empty_resolver_path request template_name trace :
  server_error_404_subdomain request template_name
    = (inl IndexError, trace) ->
  exists project full_path slug tryfile,
    project_and_path_from_request request (Request.get_full_path request)
      = (Some project, full_path)
    /\ In (slug, tryfile)
          (candidates (snd (language_and_version project full_path))
             (get_default_version project))
    /\ resolve_path project slug
         (fst (language_and_version project full_path)) tryfile true = ""
    /\ Forall missing (probes trace).
Proof.
  rewrite server_error_404_subdomain_search. intros E.
  apply serve_or_default_inv in E.
  destruct (subdomain_search request) as [res t'] eqn:Q.
  cbn [fst snd] in E. destruct E as [<- ->].
  apply subdomain_search_inv in Q.
  destruct Q as [(_ & _ & D & _) | (project & fp & language & slug & P & L & F)];
    [discriminate|].
  apply for_candidates_inv in F.
  destruct F as (pre & paths & [cslug ctry] & post & Hc & Fm & R & ->).
  exists project, fp, cslug, ctry. rewrite L. cbn [fst snd] in *.
  split; [exact P|]. split; [|split].
  - rewrite Hc. apply in_or_app. right. left. reflexivity.
  - exact R.
  - rewrite probes_map_PathExists. apply (misses_missing _ _ _ _ Fm).
Qed.

(** X8: [server_error_404] raises only for a request with a subdomain
    or a cname, and then with the exception of the subdomain handler. *)
Theorem exception_needs_a_virtual_host request template_name e trace :
  server_error_404 request template_name = (inl e, trace) ->
  Request.subdomain request || Request.cname request = true
  /\ fst (server_error_404_subdomain request template_name) = inl e.
Proof.
  intros E.
  assert (W : forall t', without_redirect request template_name = (inl e, t') ->
              Request.subdomain request || Request.cname request = true
              /\ fst (server_error_404_subdomain request template_name)
                 = inl e).
  { unfold without_redirect. intros t'.
    destruct (Request.subdomain request || Request.cname request).
    - intros ->. split; reflexivity.
    - discriminate. }
  destruct (get_redirect_response request (Request.get_full_path request))
    as [response|] eqn:R.
  - destruct (String.eqb_spec (url response)
                (Request.build_absolute_uri request)) as [L|NL].
    + rewrite (server_error_404_loop _ _ _ R L) in E.
      destruct (without_redirect request template_name) as [res t'] eqn:Q.
      cbn [fst snd] in E. injection E as -> _. apply (W t' eq_refl).
    + rewrite (server_error_404_redirects _ _ _ R NL) in E. discriminate.
  - rewrite (server_error_404_no_rule _ _ R) in E. apply (W _ E).
Qed.

End Further.

(** ** Properties of the other views *)

Lemma dict_get_set_same (d : dict) key value :
  dict_get (dict_set d key value) key = Some value.
Proof.
  induction d as [|[k v] d IH]; cbn.
  - rewrite String.eqb_refl. reflexivity.
  - destruct (String.eqb_spec k key) as [->|NE]; cbn.
    + rewrite String.eqb_refl. reflexivity.
    + apply String.eqb_neq in NE. rewrite NE. exact IH.
Qed.

Lemma dict_get_set_other (d : dict) key value other :
  other <> key ->
  dict_get (dict_set d key value) other = dict_get d other.
Proof.
  intros NE. induction d as [|[k v] d IH]; cbn.
  - apply not_eq_sym, String.eqb_neq in NE. rewrite NE. reflexivity.
  - destruct (String.eqb_spec k key) as [->|NK]; cbn.
    + apply not_eq_sym, String.eqb_neq in NE. rewrite NE. reflexivity.
    + rewrite IH. reflexivity.
Qed.

Lemma filter_all {A} (l : list A) : filter (fun _ => true) l = l.
Proof. induction l as [|a l IH]; cbn; [|rewrite IH]; reflexivity. Qed.

Lemma random_page_selects objects order_by_random project_slug :
  random_page objects order_by_random project_slug
  = match filter (selected_by project_slug) (order_by_random objects) with
    | [] => inl (Http404 "")
    | first :: _ =>
        inr {| url := HTMLFile.get_absolute_url first;
               redirect_status_code := 302 |}
    end.
Proof.
  unfold random_page, selected_by, is_truthy.
  destruct project_slug as [s|]; [destruct (str_is_empty s)|];
    cbn [negb]; rewrite ?filter_all; reflexivity.
Qed.

Lemma filter_eqb_none {A} (key : A -> string) (l : list A) (k : string) :
  (forall y, In y l -> key y <> k) ->
  filter (fun y => String.eqb (key y) k) l = [].
Proof.
  induction l as [|a l IH]; intros N; cbn; [reflexivity|].
  destruct (String.eqb_spec (key a) k) as [E|_].
  - destruct (N a (or_introl eq_refl) E).
  - apply IH. intros y Iy. apply N. right. exact Iy.
Qed.

Lemma filter_eqb_unique {A} (key : A -> string) (l : list A) (x : A) :
  NoDup (map key l) -> In x l ->
  filter (fun y => String.eqb (key y) (key x)) l = [x].
Proof.
  induction l as [|a l IH]; cbn [map]; intros ND I; [destruct I|].
  inversion ND as [|? ? Na ND']; subst. cbn [filter].
  destruct I as [->|I].
  - rewrite String.eqb_refl. f_equal. apply filter_eqb_none.
    intros y Iy E. apply Na. rewrite <- E. apply in_map. exact Iy.
  - destruct (String.eqb_spec (key a) (key x)) as [E|_].
    + exfalso. apply Na. rewrite E. apply in_map. exact I.
    + apply IH; assumption.
Qed.

Lemma filter_versions_of (project : Project.t) project_slug version_slug :
  filter (fun pv =>
            String.eqb (Project.slug (fst pv)) project_slug
            && String.eqb (Version.slug (snd pv)) version_slug)
         (map (pair project) (Project.versions project))
  = if String.eqb (Project.slug project) project_slug
    then map (pair project)
           (filter (fun v => String.eqb (Version.slug v) version_slug)
                   (Project.versions project))
    else [].
Proof.
  induction (Project.versions project) as [|v vs IH]; cbn [map filter fst snd].
  - destruct (String.eqb _ _); reflexivity.
  - rewrite IH. destruct (String.eqb (Project.slug project) project_slug);
      cbn [andb]; [|reflexivity].
    destruct (String.eqb (Version.slug v) version_slug); reflexivity.
Qed.

Lemma filter_other_projects objects project_slug version_slug :
  (forall p, In p objects -> Project.slug p <> project_slug) ->
  filter (fun pv =>
            String.eqb (Project.slug (fst pv)) project_slug
            && String.eqb (Version.slug (snd pv)) version_slug)
         (version_objects objects) = [].
Proof.
  unfold version_objects.
  induction objects as [|p objects IH]; intros N; cbn [flat_map];
    [reflexivity|].
  rewrite filter_app, filter_versions_of.
  rewrite (proj2 (String.eqb_neq _ _) (N p (or_introl eq_refl))).
  apply IH. intros q Iq. apply N. right. exact Iq.
Qed.

Lemma get_object_or_404_unique objects project version :
  NoDup (map Project.slug objects) ->
  In project objects ->
  NoDup (map Version.slug (Project.versions project)) ->
  In version (Project.versions project) ->
  get_object_or_404 objects (Project.slug project) (Version.slug version)
  = inr (project, version).
Proof.
  intros ND Ip NDv Iv. unfold get_object_or_404.
  assert (F : filter (fun pv =>
                String.eqb (Project.slug (fst pv)) (Project.slug project)
                && String.eqb (Version.slug (snd pv)) (Version.slug version))
              (version_objects objects) = [(project, version)]);
    [|rewrite F; reflexivity].
  unfold version_objects.
  induction objects as [|p objects IH]; [destruct Ip|].
  cbn [map] in ND. inversion ND as [|? ? Np ND']; subst.
  cbn [flat_map]. rewrite filter_app, filter_versions_of.
  destruct Ip as [->|Ip].
  - rewrite String.eqb_refl, (filter_eqb_unique _ _ _ NDv Iv).
    fold (version_objects objects). rewrite filter_other_projects.
    + reflexivity.
    + intros q Iq E. apply Np. rewrite <- E. apply in_map. exact Iq.
  - destruct (String.eqb_spec (Project.slug p) (Project.slug project))
      as [E|_].
    + exfalso. apply Np. rewrite E. apply in_map. exact Ip.
    + apply IH; assumption.
Qed.

Lemma get_object_or_404_found objects project_slug version_slug
    project version :
  get_object_or_404 objects project_slug version_slug
    = inr (project, version) ->
  In project objects
  /\ In version (Project.versions project)
  /\ Project.slug project = project_slug
  /\ Version.slug version = version_slug.
Proof.
  unfold get_object_or_404.
  destruct (filter _ (version_objects objects)) as [|pv [|pv' rest]] eqn:F;
    try discriminate.
  intros [= ->].
  assert (I : In (project, version) (filter
    (fun pv => String.eqb (Project.slug (fst pv)) project_slug
               && String.eqb (Version.slug (snd pv)) version_slug)
    (version_objects objects))) by (rewrite F; left; reflexivity).
  apply filter_In in I. destruct I as [I C]. cbn [fst snd] in C.
  apply andb_true_iff in C. destruct C as [Cp Cv].
  apply String.eqb_eq in Cp, Cv.
  unfold version_objects in I. apply in_flat_map in I.
  destruct I as (p & Ip & Ipv). apply in_map_iff in Ipv.
  destruct Ipv as (v & [= -> ->] & Iv). auto.
Qed.

(** X9: the support page always gets a non-empty address: the
    configured one when there is one, and [support@] followed by the
    production domain when the setting is [None] or empty; whatever the
    inherited context held under that key is replaced. *)
Theorem support_email_is_never_empty settings super_get_context_data kwargs :
  exists email,
    dict_get (SupportView.get_context_data settings super_get_context_data
                kwargs) "support_email" = Some (VStr email)
    /\ email <> ""
    /\ (forall configured,
          Settings.SUPPORT_EMAIL settings = Some configured ->
          configured <> "" -> email = configured)
    /\ (Settings.SUPPORT_EMAIL settings = None
        \/ Settings.SUPPORT_EMAIL settings = Some "" ->
        email = "support@" ++ Settings.PRODUCTION_DOMAIN settings).
Proof.
  unfold SupportView.get_context_data. eexists.
  split; [apply dict_get_set_same|].
  destruct (Settings.SUPPORT_EMAIL settings) as [[|c e]|]; cbn.
  - repeat split; try discriminate. intros configured [= <-] N.
    destruct N. reflexivity.
  - repeat split; try discriminate.
    + intros configured [= <-] _. reflexivity.
    + intros [D|D]; discriminate.
  - repeat split; discriminate.
Qed.

(** X10: the homepage context holds, under [featured_list], exactly
    the projects of the table that are featured, in table order, and
    under [projects_count] the size of the table, so the list is never
    longer than the count. *)
Theorem homepage_lists_featured_projects
    objects featured super_get_context_data kwargs :
  exists featured_list,
    dict_get (HomepageView.get_context_data objects featured
                super_get_context_data kwargs) "featured_list"
      = Some (VProjects featured_list)
    /\ dict_get (HomepageView.get_context_data objects featured
                   super_get_context_data kwargs) "projects_count"
       = Some (VInt (length objects))
    /\ (forall p, In p featured_list <-> In p objects /\ featured p = true)
    /\ length featured_list <= length objects.
Proof.
  unfold HomepageView.get_context_data. eexists. split; [|split; [|split]].
  - rewrite dict_get_set_other by discriminate. apply dict_get_set_same.
  - apply dict_get_set_same.
  - intros p. apply filter_In.
  - apply filter_length_le.
Qed.

(** X11: both class-based views add to the inherited context without
    touching its other keys. *)
Theorem views_keep_the_inherited_context
    settings objects featured super_get_context_data kwargs key :
  (key <> "support_email" ->
   dict_get (SupportView.get_context_data settings super_get_context_data
               kwargs) key
   = dict_get (super_get_context_data kwargs) key)
  /\ (key <> "featured_list" -> key <> "projects_count" ->
      dict_get (HomepageView.get_context_data objects featured
                  super_get_context_data kwargs) key
      = dict_get (super_get_context_data kwargs) key).
Proof.
  split.
  - intros N. unfold SupportView.get_context_data.
    apply dict_get_set_other. exact N.
  - intros N1 N2. unfold HomepageView.get_context_data.
    rewrite !dict_get_set_other by assumption. reflexivity.
Qed.

(** X12: when [order_by('?')] only reorders the table, [random_page]
    raises [Http404] exactly when no page passes its filter: no page of
    the named project, or no page at all when the slug is [None] or
    empty. *)
Theorem random_page_404_iff_nothing_to_show
    objects order_by_random project_slug :
  Permutation (order_by_random objects) objects ->
  random_page objects order_by_random project_slug = inl (Http404 "")
  <-> (forall f, In f objects -> selected_by project_slug f = false).
Proof.
  intros P. rewrite random_page_selects. split.
  - destruct (filter _ (order_by_random objects)) as [|first rest] eqn:F;
      [|discriminate].
    intros _ f I.
    destruct (selected_by project_slug f) eqn:S; [|reflexivity].
    assert (In f (filter (selected_by project_slug) (order_by_random objects)))
      as I'.
    { apply filter_In. split; [|exact S].
      apply (Permutation_in _ (Permutation_sym P)). exact I. }
    rewrite F in I'. destruct I'.
  - intros N.
    destruct (filter _ (order_by_random objects)) as [|first rest] eqn:F;
      [reflexivity|].
    assert (In first (filter (selected_by project_slug)
                        (order_by_random objects))) as I
      by (rewrite F; left; reflexivity).
    apply filter_In in I. destruct I as [I S].
    rewrite (N first (Permutation_in _ P I)) in S. discriminate.
Qed.

(** X13: a redirect of [random_page] is a 302 to the URL of a page of
    the table that passes the filter: with a non-empty slug it is a
    page of that project, never of another one. *)
Theorem random_page_stays_in_the_project
    objects order_by_random project_slug response :
  Permutation (order_by_random objects) objects ->
  random_page objects order_by_random project_slug = inr response ->
  redirect_status_code response = 302%Z
  /\ exists f,
       In f objects
       /\ url response = HTMLFile.get_absolute_url f
       /\ forall slug, project_slug = Some slug -> slug <> "" ->
                       HTMLFile.project_slug f = slug.
Proof.
  intros P. rewrite random_page_selects.
  destruct (filter _ (order_by_random objects)) as [|first rest] eqn:F;
    [discriminate|].
  intros [= <-]. split; [reflexivity|]. exists first.
  assert (In first (filter (selected_by project_slug)
                      (order_by_random objects))) as I
    by (rewrite F; left; reflexivity).
  apply filter_In in I. destruct I as [I S].
  split; [apply (Permutation_in _ P I)|]. split; [reflexivity|].
  intros slug -> N. cbn in S. rewrite (str_is_empty_false _ N) in S.
  apply String.eqb_eq. exact S.
Qed.

(** X14: [wipe_version] wipes nothing but the version it was asked
    for, and only on a POST for a version that exists in a project the
    user administers; it then redirects to the project's version
    list. *)
Theorem wipe_only_when_authorised
    objects for_admin_user reverse request project_slug version_slug a :
  In a (snd (wipe_version objects for_admin_user reverse request
               project_slug version_slug)) ->
  a = WipeVersionViaSlugs version_slug project_slug
  /\ AuthRequest.method request = "POST"
  /\ (exists project version,
         In project objects
         /\ In version (Project.versions project)
         /\ Project.slug project = project_slug
         /\ Version.slug version = version_slug
         /\ project_in project
              (for_admin_user (AuthRequest.user request)) = true)
  /\ wipe_version objects for_admin_user reverse request
       project_slug version_slug
     = (inr (Redirected
               {| url := reverse "project_version_list" [project_slug];
                  redirect_status_code := 302 |}),
        [a]).
Proof.
  unfold wipe_version.
  destruct (get_object_or_404 objects project_slug version_slug)
    as [e|[project version]] eqn:G; [intros []|].
  destruct (project_in project _) eqn:A; cbn [negb]; [|intros []].
  destruct (String.eqb_spec (AuthRequest.method request) "POST") as [P|_];
    [|intros []].
  cbn [snd]. intros [<-|[]].
  apply get_object_or_404_found in G. destruct G as (Ip & Iv & Sp & Sv).
  repeat split; try assumption.
  exists project, version. repeat split; assumption.
Qed.

(** X15: a user who administers no project with the given slug always
    gets an exception from [wipe_version], whatever the method and
    whether or not the version exists, and nothing is wiped. *)
Theorem wipe_refused_without_admin_rights
    objects for_admin_user reverse request project_slug version_slug :
  (forall q, In q (for_admin_user (AuthRequest.user request)) ->
             Project.slug q <> project_slug) ->
  exists e,
    wipe_version objects for_admin_user reverse request
      project_slug version_slug = (inl e, []).
Proof.
  intros N. unfold wipe_version.
  destruct (get_object_or_404 objects project_slug version_slug)
    as [e|[project version]] eqn:G; [exists e; reflexivity|].
  apply get_object_or_404_found in G. destruct G as (_ & _ & Sp & _).
  assert (A : project_in project
                (for_admin_user (AuthRequest.user request)) = false).
  { unfold project_in.
    destruct (existsb _ _) eqn:X; [|reflexivity].
    apply existsb_exists in X. destruct X as (q & Iq & E).
    apply String.eqb_eq in E. destruct (N q Iq). congruence. }
  rewrite A. eexists. reflexivity.
Qed.

(** X16: with any method other than POST, [wipe_version] wipes
    nothing; what it returns, if it returns, is the confirmation page
    for the requested version and its project. *)
Theorem wipe_needs_a_post
    objects for_admin_user reverse request project_slug version_slug :
  AuthRequest.method request <> "POST" ->
  snd (wipe_version objects for_admin_user reverse request
         project_slug version_slug) = []
  /\ forall response,
       fst (wipe_version objects for_admin_user reverse request
              project_slug version_slug) = inr response ->
       exists project version,
         response = TemplatePage "wipe_version.html"
                      [("version", VVersion version);
                       ("project", VProject project)]
         /\ In project objects
         /\ In version (Project.versions project)
         /\ Project.slug project = project_slug
         /\ Version.slug version = version_slug.
Proof.
  intros NP. apply String.eqb_neq in NP. unfold wipe_version.
  destruct (get_object_or_404 objects project_slug version_slug)
    as [e|[project version]] eqn:G; [split; [reflexivity | discriminate]|].
  destruct (project_in project _); cbn [negb];
    [|split; [reflexivity | discriminate]].
  rewrite NP. split; [reflexivity|]. cbn [fst]. intros response [= <-].
  apply get_object_or_404_found in G.
  exists project, version. split; [reflexivity | exact G].
Qed.

(** X17: when project slugs are unique in the table and version slugs
    unique in the project, a POST by an administrator of the project
    for one of its versions wipes exactly that version and redirects to
    the version list; the lookup never fails or finds two records. *)
Theorem wipe_on_post_by_an_administrator
    objects for_admin_user reverse request project version :
  NoDup (map Project.slug objects) ->
  In project objects ->
  NoDup (map Version.slug (Project.versions project)) ->
  In version (Project.versions project) ->
  project_in project (for_admin_user (AuthRequest.user request)) = true ->
  AuthRequest.method request = "POST" ->
  wipe_version objects for_admin_user reverse request
    (Project.slug project) (Version.slug version)
  = (inr (Redirected
            {| url := reverse "project_version_list" [Project.slug project];
               redirect_status_code := 302 |}),
     [WipeVersionViaSlugs (Version.slug version) (Project.slug project)]).
Proof.
  intros ND Ip NDv Iv A P. unfold wipe_version.
  rewrite (get_object_or_404_unique _ _ _ ND Ip NDv Iv), A, P.
  reflexivity.
Qed.

(** X18: the tracking status is [N] exactly when the [HTTP_DNT] header
    is the string [1]; with any other value, or without the header, it
    is [T]; nothing else in the response depends on the request. *)
Theorem do_not_track_follows_the_header META META' :
  (tracking_of (do_not_track META) = Some (JStr "N")
   <-> META_get META "HTTP_DNT" = Some "1")
  /\ (META_get META "HTTP_DNT" <> Some "1" ->
      tracking_of (do_not_track META) = Some (JStr "T"))
  /\ without_tracking (do_not_track META)
     = without_tracking (do_not_track META').
Proof.
  unfold tracking_of, without_tracking, do_not_track. cbn.
  split; [|split; [|reflexivity]].
  - destruct (META_get META "HTTP_DNT") as [h|]; [|split; discriminate].
    destruct (String.eqb_spec h "1") as [->|N].
    + split; reflexivity.
    + split; [discriminate | intros [= E]; destruct (N E)].
  - destruct (META_get META "HTTP_DNT") as [h|]; [|reflexivity].
    destruct (String.eqb_spec h "1") as [->|N]; [|reflexivity].
    intros D. destruct D. reflexivity.
Qed.

(** ** The further properties on the samples *)

Lemma served_file_passed_the_existence_check_witness :
  @path_exists Demo.site
    (os_path_join "/private_web_root/pip" "en/v2/404/index.html") = true
  /\ exists earlier,
       [ "/private_web_root/pip/en/v2/404.html";
         "/private_web_root/pip/en/v2/404/index.html" ]
       = (earlier
          ++ [os_path_join "/private_web_root/pip" "en/v2/404/index.html"])%list
       /\ Forall (@missing Demo.site) earlier.
Proof.
  destruct (@served_file_passed_the_existence_check Demo.site
              (Demo.on_subdomain "/en/v2/missing-page/") "404.html"
              {| content :=
                   StaticFile "en/v2/404/index.html" "/private_web_root/pip";
                 status_code := 404 |}
              [ PathExists "/private_web_root/pip/en/v2/404.html";
                PathExists "/private_web_root/pip/en/v2/404/index.html";
                LogDebug "pip" (Some "v2") ]
              "en/v2/404/index.html" "/private_web_root/pip"
              eq_refl eq_refl) as (_ & X & E).
  split; assumption.
Defined.

Lemma default_page_means_every_candidate_missed_witness :
  Forall (@missing Demo.bare_site)
    [ "/public_web_root/pip/en/v1/404.html";
      "/public_web_root/pip/en/v1/404/index.html";
      "/public_web_root/pip/en/latest/404.html";
      "/public_web_root/pip/en/latest/404/index.html" ].
Proof.
  apply (@default_page_means_every_candidate_missed Demo.bare_site
           (Demo.on_subdomain "/en/v1/missing-page/") "404.html"
           {| content := Rendered "404.html"; status_code := 404 |}
           (map PathExists
              [ "/public_web_root/pip/en/v1/404.html";
                "/public_web_root/pip/en/v1/404/index.html";
                "/public_web_root/pip/en/latest/404.html";
                "/public_web_root/pip/en/latest/404/index.html" ])
           "404.html" eq_refl eq_refl).
Defined.

Lemma no_redirect_to_the_request_itself_witness :
  "https://pip.example.com/new/" <> "https://pip.example.com/old/".
Proof.
  apply (proj1 (@no_redirect_to_the_request_itself Demo.site
                  (Demo.on_subdomain "/old/") "404.html"
                  {| content := RedirectTo "https://pip.example.com/new/";
                     status_code := 302 |} [] eq_refl)
           "https://pip.example.com/new/" eq_refl).
Defined.

Lemma resolved_path_stays_below_root_witness :
  String.prefix "/private_web_root/pip" "/private_web_root/pip/en/v2/404.html"
  = true.
Proof.
  apply (@resolved_path_stays_below_root Demo.site Demo.pip
           (Some "v2") (Some "en") "404.html"
           "/private_web_root/pip" "en/v2/404.html"
           "/private_web_root/pip/en/v2/404.html" [] eq_refl eq_refl).
Defined.

Lemma single_version_search_ignores_the_path_witness :
  snd (@server_error_404_subdomain Demo.manual_site
         (Demo.on_subdomain "/install.html") "404.html")
  = snd (@server_error_404_subdomain Demo.manual_site
           (Demo.on_subdomain "/en/v2/missing-page/?q=1") "404.html").
Proof.
  apply (@single_version_search_ignores_the_path Demo.manual_site
           (Demo.on_subdomain "/install.html")
           (Demo.on_subdomain "/en/v2/missing-page/?q=1")
           "404.html" "404.html" Demo.manual
           "/install.html" "/en/v2/missing-page/?q=1");
    reflexivity.
Defined.

Lemma default_version_is_checked_twice_witness :
  exists trace,
    @server_error_404_subdomain Demo.bare_site
      (Demo.on_subdomain "/en/latest/missing-page/") "404.html"
    = (inr (default_404 (Demo.on_subdomain "/en/latest/missing-page/")
              "404.html"), trace)
    /\ probes trace
       = [ "/public_web_root/pip/en/latest/404.html";
           "/public_web_root/pip/en/latest/404/index.html";
           "/public_web_root/pip/en/latest/404.html";
           "/public_web_root/pip/en/latest/404/index.html" ].
Proof.
  apply (@default_version_is_checked_twice Demo.bare_site
           (Demo.on_subdomain "/en/latest/missing-page/") "404.html"
           Demo.pip "/en/latest/missing-page/" (Some "en")).
  - reflexivity.
  - reflexivity.
  - exists "/public_web_root/pip", "en/latest/404.html". split; reflexivity.
  - exists "/public_web_root/pip", "en/latest/404/index.html".
    split; reflexivity.
Defined.

Lemma index_error_means_empty_resolver_path_witness :
  exists project full_path slug tryfile,
    @project_and_path_from_request Demo.empty_site
      (Demo.on_subdomain "/en/v1/missing-page/") "/en/v1/missing-page/"
    = (Some project, full_path)
    /\ In (slug, tryfile)
          (candidates
             (snd (@language_and_version Demo.empty_site project full_path))
             (@get_default_version Demo.empty_site project))
    /\ @resolve_path Demo.empty_site project slug
         (fst (@language_and_version Demo.empty_site project full_path))
         tryfile true = ""
    /\ Forall (@missing Demo.empty_site) [].
Proof.
  apply (@index_error_means_empty_resolver_path Demo.empty_site
           (Demo.on_subdomain "/en/v1/missing-page/") "404.html"
           [] eq_refl).
Defined.

Lemma exception_needs_a_virtual_host_witness :
  Request.subdomain (Demo.on_subdomain "/en/v1/missing-page/")
  || Request.cname (Demo.on_subdomain "/en/v1/missing-page/") = true
  /\ fst (@server_error_404_subdomain Demo.empty_site
            (Demo.on_subdomain "/en/v1/missing-page/") "404.html")
     = inl IndexError.
Proof.
  apply (@exception_needs_a_virtual_host Demo.empty_site
           (Demo.on_subdomain "/en/v1/missing-page/") "404.html"
           IndexError [] eq_refl).
Defined.

Lemma support_email_is_never_empty_witness :
  exists email,
    dict_get (SupportView.get_context_data Sample.unset Sample.with_view [])
      "support_email" = Some (VStr email)
    /\ email = "support@readthedocs.org".
Proof.
  destruct (support_email_is_never_empty Sample.unset Sample.with_view [])
    as (email & G & _ & _ & F).
  exists email. split; [exact G | apply F; left; reflexivity].
Defined.

Lemma homepage_lists_featured_projects_witness :
  exists featured_list,
    dict_get (HomepageView.get_context_data Sample.projects
                Sample.is_featured Sample.with_view []) "featured_list"
      = Some (VProjects featured_list)
    /\ length featured_list <= 2.
Proof.
  destruct (homepage_lists_featured_projects Sample.projects
              Sample.is_featured Sample.with_view [])
    as (featured_list & G & _ & _ & L).
  exists featured_list. split; [exact G | exact L].
Defined.

Lemma views_keep_the_inherited_context_witness :
  dict_get (SupportView.get_context_data Sample.unset Sample.with_view [])
    "view"
  = dict_get (Sample.with_view []) "view"
  /\ dict_get (HomepageView.get_context_data Sample.projects
                 Sample.is_featured Sample.with_view []) "view"
     = dict_get (Sample.with_view []) "view".
Proof.
  destruct (views_keep_the_inherited_context Sample.unset Sample.projects
              Sample.is_featured Sample.with_view [] "view") as [S P].
  split; [apply S | apply P]; discriminate.
Defined.

Lemma random_page_404_iff_nothing_to_show_witness :
  random_page Sample.pages (@rev HTMLFile.t) (Some "flask")
  = inl (Http404 "").
Proof.
  apply (proj2 (random_page_404_iff_nothing_to_show Sample.pages
                  (@rev HTMLFile.t) (Some "flask")
                  (Permutation_sym (Permutation_rev Sample.pages)))).
  intros f [<-|[<-|[<-|[]]]]; reflexivity.
Defined.

Lemma random_page_stays_in_the_project_witness :
  exists f,
    In f Sample.pages
    /\ "https://manual.example.com/install.html" = HTMLFile.get_absolute_url f
    /\ HTMLFile.project_slug f = "manual".
Proof.
  destruct (random_page_stays_in_the_project Sample.pages (@rev HTMLFile.t)
              (Some "manual")
              {| url := "https://manual.example.com/install.html";
                 redirect_status_code := 302 |}
              (Permutation_sym (Permutation_rev Sample.pages)) eq_refl)
    as (_ & f & I & U & S).
  exists f. split; [exact I|]. split; [exact U|].
  apply (S "manual" eq_refl). discriminate.
Defined.

Lemma wipe_only_when_authorised_witness :
  AuthRequest.method Sample.alice_posts = "POST"
  /\ wipe_version Sample.projects Sample.admin_of Sample.url_of
       Sample.alice_posts "pip" "v2"
     = (inr (Redirected
               {| url := "/dashboard/pip/project_version_list/";
                  redirect_status_code := 302 |}),
        [WipeVersionViaSlugs "v2" "pip"]).
Proof.
  destruct (wipe_only_when_authorised Sample.projects Sample.admin_of
              Sample.url_of Sample.alice_posts "pip" "v2"
              (WipeVersionViaSlugs "v2" "pip") (or_introl eq_refl))
    as (_ & P & _ & W).
  split; [exact P | exact W].
Defined.

Lemma wipe_refused_without_admin_rights_witness :
  exists e,
    wipe_version Sample.projects Sample.admin_of Sample.url_of
      Sample.bob_posts "pip" "v2" = (inl e, []).
Proof.
  apply (wipe_refused_without_admin_rights Sample.projects Sample.admin_of
           Sample.url_of Sample.bob_posts "pip" "v2").
  intros q [].
Defined.

Lemma wipe_needs_a_post_witness :
  snd (wipe_version Sample.projects Sample.admin_of Sample.url_of
         Sample.alice_gets "pip" "v2") = [].
Proof.
  apply (wipe_needs_a_post Sample.projects Sample.admin_of Sample.url_of
           Sample.alice_gets "pip" "v2").
  discriminate.
Defined.

Lemma wipe_on_post_by_an_administrator_witness :
  wipe_version Sample.projects Sample.admin_of Sample.url_of
    Sample.alice_posts "pip" "v2"
  = (inr (Redirected
            {| url := Sample.url_of "project_version_list" ["pip"];
               redirect_status_code := 302 |}),
     [WipeVersionViaSlugs "v2" "pip"]).
Proof.
  apply (wipe_on_post_by_an_administrator Sample.projects Sample.admin_of
           Sample.url_of Sample.alice_posts Demo.pip Demo.v2).
  - repeat constructor; cbn; intuition discriminate.
  - left. reflexivity.
  - repeat constructor; cbn; intuition discriminate.
  - left. reflexivity.
  - reflexivity.
  - reflexivity.
Defined.

Lemma do_not_track_follows_the_header_witness :
  tracking_of (do_not_track [("HTTP_DNT", "1")]) = Some (JStr "N")
  /\ tracking_of (do_not_track [("HTTP_DNT", "0")]) = Some (JStr "T").
Proof.
  split.
  - apply (proj1 (do_not_track_follows_the_header [("HTTP_DNT", "1")] [])).
    reflexivity.
  - apply (proj1 (proj2 (do_not_track_follows_the_header
                           [("HTTP_DNT", "0")] []))).
    discriminate.
Defined.
